(** * face-app: the check-in component as an event-driven state machine

  The Angular component [CheckInComponent] together with [ApiService]
  is embedded as a transition system.  Every [async] method is cut at
  its [await] points: the part that runs synchronously up to the [await]
  is one function, the continuation that runs when the awaited promise
  settles is another.  The browser (timers, the face-detection engine,
  [fetch], the user) chooses the order in which continuations run; that
  choice is the list of [Event]s. *)

From Stdlib Require Import Floats Ascii.
From stdpp Require Import base option list gmap strings.

Set Warnings "-inexact-float,-register-all".

(** ** JavaScript strings *)

Module JsString.

(** A string is the UTF-8 encoding of the JavaScript string. *)
Definition bytes (l : list nat) : list ascii := List.map ascii_of_nat l.

(** The code points [String.prototype.trim] strips (WhiteSpace and
    LineTerminator of ECMA-262), each as its UTF-8 byte sequence. *)
Definition white_space : list (list ascii) :=
  [ bytes [9]; bytes [10]; bytes [11]; bytes [12]; bytes [13]; bytes [32];
    bytes [194; 160];
    bytes [225; 154; 128];
    bytes [226; 128; 128]; bytes [226; 128; 129]; bytes [226; 128; 130];
    bytes [226; 128; 131]; bytes [226; 128; 132]; bytes [226; 128; 133];
    bytes [226; 128; 134]; bytes [226; 128; 135]; bytes [226; 128; 136];
    bytes [226; 128; 137]; bytes [226; 128; 138];
    bytes [226; 128; 168]; bytes [226; 128; 169]; bytes [226; 128; 175];
    bytes [226; 129; 159];
    bytes [227; 128; 128];
    bytes [239; 187; 191] ].

Fixpoint strip_prefix (p s : list ascii) : option (list ascii) :=
  match p, s with
  | [], _ => Some s
  | a :: p', b :: s' => if Ascii.eqb a b then strip_prefix p' s' else None
  | _ :: _, [] => None
  end.

Fixpoint strip_any (ps : list (list ascii)) (s : list ascii) : option (list ascii) :=
  match ps with
  | [] => None
  | p :: ps' =>
      match strip_prefix p s with
      | Some rest => Some rest
      | None => strip_any ps' s
      end
  end.

Fixpoint strip_leading (fuel : nat) (ps : list (list ascii)) (s : list ascii) : list ascii :=
  match fuel with
  | 0 => s
  | S fuel' =>
      match strip_any ps s with
      | Some rest => strip_leading fuel' ps rest
      | None => s
      end
  end.

Definition trimStart_bytes (s : list ascii) : list ascii :=
  strip_leading (length s) white_space s.

(** In well-formed UTF-8 a suffix equal to one of the sequences above is
    a whole code point, so trailing white space is stripped on the
    reversed bytes with the reversed sequences. *)
Definition trimEnd_bytes (s : list ascii) : list ascii :=
  rev (strip_leading (length s) (List.map (@rev ascii) white_space) (rev s)).

Definition trim (s : string) : string :=
  String.string_of_list_ascii
    (trimEnd_bytes (trimStart_bytes (String.list_ascii_of_string s))).

(** [hay.includes(needle)] *)
Fixpoint includes (needle hay : string) : bool :=
  String.prefix needle hay ||
  match hay with
  | EmptyString => false
  | String _ rest => includes needle rest
  end.

Definition is_empty (s : string) : bool :=
  match s with EmptyString => true | String _ _ => false end.

End JsString.

(** ** JavaScript values, as far as the component inspects them *)

Module Js.

(** What [JSON.parse] can return, and [undefined]. *)
Inductive value : Type :=
| Undefined
| Null
| Bool (b : bool)
| Num (x : float)
| Str (s : string)
| Arr (items : list value)
| Obj (props : list (string * value)).

(** ToBoolean *)
Definition truthy (v : value) : bool :=
  match v with
  | Undefined | Null => false
  | Bool b => b
  | Num x => negb (PrimFloat.eqb x 0%float || PrimFloat.is_nan x)
  | Str s => negb (JsString.is_empty s)
  | Arr _ | Obj _ => true
  end.

Fixpoint assoc (k : string) (props : list (string * value)) : value :=
  match props with
  | [] => Undefined
  | (k', v) :: rest => if String.eqb k k' then v else assoc k rest
  end.

(** [v.k] for [v] neither [null] nor [undefined].  An object holds each
    key once, as [JSON.parse] builds it.  The keys the component reads
    ([success], [message], [customer], [name], [distance]) are own
    properties of no primitive and of no array. *)
Definition get (k : string) (v : value) : value :=
  match v with
  | Obj props => assoc k props
  | _ => Undefined
  end.

(** [v.k], which throws a TypeError on [null] and [undefined]. *)
Definition get_strict (k : string) (v : value) : option value :=
  match v with
  | Undefined | Null => None
  | _ => Some (get k v)
  end.

(** [v?.k] *)
Definition get_opt (k : string) (v : value) : value :=
  match v with
  | Undefined | Null => Undefined
  | _ => get k v
  end.

(** [a || b] *)
Definition or_else (a b : value) : value := if truthy a then a else b.

Section ToString.

(** Number::toString of the JavaScript runtime. *)
Variable number_toString : float -> string.

(** ToString, as a template literal applies it. *)
Fixpoint toString (v : value) : string :=
  match v with
  | Undefined => "undefined"
  | Null => "null"
  | Bool true => "true"
  | Bool false => "false"
  | Num x => number_toString x
  | Str s => s
  | Arr items =>
      String.concat ","
        (List.map (fun i => match i with
                            | Undefined | Null => ""
                            | _ => toString i
                            end) items)
  | Obj _ => "[object Object]"
  end.

End ToString.

End Js.

(** ** api.service.ts *)

Module Api.

(** A [Float32Array]: the face descriptor. *)
Definition Descriptor : Type := list float.

Record File : Type := { file_name : string; file_bytes : list ascii }.

Inductive FormPart : Type :=
| Text (s : string)
| Blob (data : Descriptor) (filename : string)
| Upload (f : File) (filename : string).

Record Request : Type := { url : string; form : list (string * FormPart) }.

Definition baseUrl : string := "http://localhost:3000".

(** What [fetch] delivers. *)
Record Response : Type :=
  { status : nat;
    statusText : string;
    content_type : option string;   (* [res.headers.get('content-type')] *)
    json : option Js.value }.       (* [res.json()]; [None]: it rejects *)

Inductive FetchOutcome : Type :=
| NetworkFailure                    (* [fetch] rejects (connection refused) *)
| Responded (r : Response).

(** [res.ok] *)
Definition ok (r : Response) : bool :=
  (200 <=? status r) && (status r <=? 299).

(** What a method of the service throws. *)
Inductive Error : Type :=
| HttpJsonError (status : nat) (body : Js.value)     (* [{ status, body }] *)
| HttpError (status : nat) (statusText : string)     (* [{ status, statusText }] *)
| TypeError                                          (* from [fetch] *)
| SyntaxError.                                       (* from [res.json()] *)

Inductive Settled : Type :=
| Fulfilled (res : Js.value)
| Rejected (err : Error).

(** [err.body] *)
Definition body (e : Error) : Js.value :=
  match e with
  | HttpJsonError _ b => b
  | _ => Js.Undefined
  end.

(** The request [postForm] sends. *)
Definition postForm_request (endpoint : string) (formData : list (string * FormPart)) : Request :=
  {| url := baseUrl +:+ endpoint; form := formData |}.

(** How [postForm] settles once [fetch] has. *)
Definition postForm (o : FetchOutcome) : Settled :=
  match o with
  | NetworkFailure => Rejected TypeError
  | Responded res =>
      let contentType := default "" (content_type res) in
      if JsString.includes "application/json" contentType then
        match json res with
        | None => Rejected SyntaxError
        | Some j =>
            if ok res then Fulfilled j
            else Rejected (HttpJsonError (status res) j)
        end
      else
        if ok res then Fulfilled (Js.Obj [("success", Js.Bool true)])
        else Rejected (HttpError (status res) (statusText res))
  end.

Definition checkInWithDescriptor (descriptor : Descriptor) : Request :=
  postForm_request "/checkin/detection"
    [("descriptor", Blob descriptor "descriptor.bin")].

Definition registerCustomer (name code : string) (file : File) : Request :=
  postForm_request "/register"
    [("name", Text name); ("code", Text code);
     ("imageFile", Upload file (file_name file))].

End Api.

(** ** check-in.component.ts: state *)

Inductive Mode : Type := camera | file.

Inductive Status : Type := idle | success | error | info.

(** An entry of the browser's map of active timers: the callback of
    [setInterval] (a detection tick) or of [setTimeout] (the auto-submit
    trigger), and the time from which it may run. *)
Inductive Timer : Type :=
| Interval (due : nat)
| Timeout (due : nat).

(** What the face-detection engine returns for a frame; landmarks only go
    to the canvas. *)
Record Detection : Type := { descriptor : Api.Descriptor }.

(** How [detectSingleFaceFromVideo] / [detectSingleFaceFromCanvas] settle:
    they reject when the models cannot be loaded, and resolve to [null]
    or to a detection otherwise. *)
Inductive Engine : Type :=
| Threw
| Returned (detection : option Detection).

(** What the component does to the outside, and the calls of its two
    check-in methods. *)
Inductive Action : Type :=
| Fetch (request : Api.Request)
| CallHandleCheckIn
| CallHandleFileCheckIn
| SetTimeout (id delay : nat).

(** The fields of [CheckInComponent]. *)
Record Component : Type :=
  { videoElement : bool;   (* the [ViewChild] is present *)
    canvasElement : bool;
    fileCanvasElement : bool;
    loading : bool;
    loaddingModels : bool;
    checkInResult : Js.value;
    faceValid : bool;
    faceDetecting : bool;
    currentMode : Mode;
    selectedFile : option Api.File;
    selectedDescriptor : option Api.Descriptor;   (* [None]: null *)
    detectionInterval : option nat;   (* [None]: null *)
    isDragging : bool;
    timerHandleCheckin : option nat;   (* [None]: undefined or null *)
    isRegistrationDisabled : bool;
    registrationName : string;
    registrationCode : string;
    registrationFile : option Api.File;
    registrationLoading : bool;
    registrationResult : Js.value;
    registrationStatus : Status }.

(** The event loop around the component: timers, and for every [await] in the
    component the number of calls suspended at it. *)
Record Runtime : Type :=
  { now : nat;   (* milliseconds *)
    nextTimer : nat;   (* the next timer id the browser hands out *)
    timers : gmap nat Timer;   (* the browser's map of active timers *)
    srcObject : bool;   (* the video element has a camera stream *)
    cameraRequests : nat;   (* [getUserMedia] calls not yet settled *)
    modelLoads : nat;   (* [safeLoadModels] awaiting [loadModels] *)
    detections : nat;   (* [detectFace] calls awaiting the engine *)
    liveCheckIns : nat;   (* [handleCheckIn] calls awaiting [fetch] *)
    fileReads : nat;   (* [processSelectedFile] awaiting the decoded image *)
    fileDetections : nat;   (* [processSelectedFile] awaiting the engine *)
    fileCheckIns : nat;   (* [handleFileCheckIn] calls awaiting [fetch] *)
    registrations : nat;   (* [handleRegistrationSubmit] calls awaiting [fetch] *)
    trace : list Action }.   (* what the component did, newest first *)

Record World : Type := { this :> Component; rt :> Runtime }.

(** [this.f = v], field by field. *)
Definition set_videoElement (v : bool) (w : World) : World :=
  let '(Build_Component x1 x2 x3 x4 x5 x6 x7 x8 x9 x10 x11 x12 x13 x14 x15
    x16 x17 x18 x19 x20 x21) := this w in
  {| this := Build_Component v x2 x3 x4 x5 x6 x7 x8 x9 x10 x11 x12 x13 x14
    x15 x16 x17 x18 x19 x20 x21; rt := rt w |}.

Definition set_canvasElement (v : bool) (w : World) : World :=
  let '(Build_Component x1 x2 x3 x4 x5 x6 x7 x8 x9 x10 x11 x12 x13 x14 x15
    x16 x17 x18 x19 x20 x21) := this w in
  {| this := Build_Component x1 v x3 x4 x5 x6 x7 x8 x9 x10 x11 x12 x13 x14
    x15 x16 x17 x18 x19 x20 x21; rt := rt w |}.

Definition set_fileCanvasElement (v : bool) (w : World) : World :=
  let '(Build_Component x1 x2 x3 x4 x5 x6 x7 x8 x9 x10 x11 x12 x13 x14 x15
    x16 x17 x18 x19 x20 x21) := this w in
  {| this := Build_Component x1 x2 v x4 x5 x6 x7 x8 x9 x10 x11 x12 x13 x14
    x15 x16 x17 x18 x19 x20 x21; rt := rt w |}.

Definition set_loading (v : bool) (w : World) : World :=
  let '(Build_Component x1 x2 x3 x4 x5 x6 x7 x8 x9 x10 x11 x12 x13 x14 x15
    x16 x17 x18 x19 x20 x21) := this w in
  {| this := Build_Component x1 x2 x3 v x5 x6 x7 x8 x9 x10 x11 x12 x13 x14
    x15 x16 x17 x18 x19 x20 x21; rt := rt w |}.

Definition set_loaddingModels (v : bool) (w : World) : World :=
  let '(Build_Component x1 x2 x3 x4 x5 x6 x7 x8 x9 x10 x11 x12 x13 x14 x15
    x16 x17 x18 x19 x20 x21) := this w in
  {| this := Build_Component x1 x2 x3 x4 v x6 x7 x8 x9 x10 x11 x12 x13 x14
    x15 x16 x17 x18 x19 x20 x21; rt := rt w |}.

Definition set_checkInResult (v : Js.value) (w : World) : World :=
  let '(Build_Component x1 x2 x3 x4 x5 x6 x7 x8 x9 x10 x11 x12 x13 x14 x15
    x16 x17 x18 x19 x20 x21) := this w in
  {| this := Build_Component x1 x2 x3 x4 x5 v x7 x8 x9 x10 x11 x12 x13 x14
    x15 x16 x17 x18 x19 x20 x21; rt := rt w |}.

Definition set_faceValid (v : bool) (w : World) : World :=
  let '(Build_Component x1 x2 x3 x4 x5 x6 x7 x8 x9 x10 x11 x12 x13 x14 x15
    x16 x17 x18 x19 x20 x21) := this w in
  {| this := Build_Component x1 x2 x3 x4 x5 x6 v x8 x9 x10 x11 x12 x13 x14
    x15 x16 x17 x18 x19 x20 x21; rt := rt w |}.

Definition set_faceDetecting (v : bool) (w : World) : World :=
  let '(Build_Component x1 x2 x3 x4 x5 x6 x7 x8 x9 x10 x11 x12 x13 x14 x15
    x16 x17 x18 x19 x20 x21) := this w in
  {| this := Build_Component x1 x2 x3 x4 x5 x6 x7 v x9 x10 x11 x12 x13 x14
    x15 x16 x17 x18 x19 x20 x21; rt := rt w |}.

Definition set_currentMode (v : Mode) (w : World) : World :=
  let '(Build_Component x1 x2 x3 x4 x5 x6 x7 x8 x9 x10 x11 x12 x13 x14 x15
    x16 x17 x18 x19 x20 x21) := this w in
  {| this := Build_Component x1 x2 x3 x4 x5 x6 x7 x8 v x10 x11 x12 x13 x14
    x15 x16 x17 x18 x19 x20 x21; rt := rt w |}.

Definition set_selectedFile (v : option Api.File) (w : World) : World :=
  let '(Build_Component x1 x2 x3 x4 x5 x6 x7 x8 x9 x10 x11 x12 x13 x14 x15
    x16 x17 x18 x19 x20 x21) := this w in
  {| this := Build_Component x1 x2 x3 x4 x5 x6 x7 x8 x9 v x11 x12 x13 x14
    x15 x16 x17 x18 x19 x20 x21; rt := rt w |}.

Definition set_selectedDescriptor (v : option Api.Descriptor) (w : World) : World :=
  let '(Build_Component x1 x2 x3 x4 x5 x6 x7 x8 x9 x10 x11 x12 x13 x14 x15
    x16 x17 x18 x19 x20 x21) := this w in
  {| this := Build_Component x1 x2 x3 x4 x5 x6 x7 x8 x9 x10 v x12 x13 x14
    x15 x16 x17 x18 x19 x20 x21; rt := rt w |}.

Definition set_detectionInterval (v : option nat) (w : World) : World :=
  let '(Build_Component x1 x2 x3 x4 x5 x6 x7 x8 x9 x10 x11 x12 x13 x14 x15
    x16 x17 x18 x19 x20 x21) := this w in
  {| this := Build_Component x1 x2 x3 x4 x5 x6 x7 x8 x9 x10 x11 v x13 x14
    x15 x16 x17 x18 x19 x20 x21; rt := rt w |}.

Definition set_isDragging (v : bool) (w : World) : World :=
  let '(Build_Component x1 x2 x3 x4 x5 x6 x7 x8 x9 x10 x11 x12 x13 x14 x15
    x16 x17 x18 x19 x20 x21) := this w in
  {| this := Build_Component x1 x2 x3 x4 x5 x6 x7 x8 x9 x10 x11 x12 v x14
    x15 x16 x17 x18 x19 x20 x21; rt := rt w |}.

Definition set_timerHandleCheckin (v : option nat) (w : World) : World :=
  let '(Build_Component x1 x2 x3 x4 x5 x6 x7 x8 x9 x10 x11 x12 x13 x14 x15
    x16 x17 x18 x19 x20 x21) := this w in
  {| this := Build_Component x1 x2 x3 x4 x5 x6 x7 x8 x9 x10 x11 x12 x13 v
    x15 x16 x17 x18 x19 x20 x21; rt := rt w |}.

Definition set_isRegistrationDisabled (v : bool) (w : World) : World :=
  let '(Build_Component x1 x2 x3 x4 x5 x6 x7 x8 x9 x10 x11 x12 x13 x14 x15
    x16 x17 x18 x19 x20 x21) := this w in
  {| this := Build_Component x1 x2 x3 x4 x5 x6 x7 x8 x9 x10 x11 x12 x13 x14
    v x16 x17 x18 x19 x20 x21; rt := rt w |}.

Definition set_registrationName (v : string) (w : World) : World :=
  let '(Build_Component x1 x2 x3 x4 x5 x6 x7 x8 x9 x10 x11 x12 x13 x14 x15
    x16 x17 x18 x19 x20 x21) := this w in
  {| this := Build_Component x1 x2 x3 x4 x5 x6 x7 x8 x9 x10 x11 x12 x13 x14
    x15 v x17 x18 x19 x20 x21; rt := rt w |}.

Definition set_registrationCode (v : string) (w : World) : World :=
  let '(Build_Component x1 x2 x3 x4 x5 x6 x7 x8 x9 x10 x11 x12 x13 x14 x15
    x16 x17 x18 x19 x20 x21) := this w in
  {| this := Build_Component x1 x2 x3 x4 x5 x6 x7 x8 x9 x10 x11 x12 x13 x14
    x15 x16 v x18 x19 x20 x21; rt := rt w |}.

Definition set_registrationFile (v : option Api.File) (w : World) : World :=
  let '(Build_Component x1 x2 x3 x4 x5 x6 x7 x8 x9 x10 x11 x12 x13 x14 x15
    x16 x17 x18 x19 x20 x21) := this w in
  {| this := Build_Component x1 x2 x3 x4 x5 x6 x7 x8 x9 x10 x11 x12 x13 x14
    x15 x16 x17 v x19 x20 x21; rt := rt w |}.

Definition set_registrationLoading (v : bool) (w : World) : World :=
  let '(Build_Component x1 x2 x3 x4 x5 x6 x7 x8 x9 x10 x11 x12 x13 x14 x15
    x16 x17 x18 x19 x20 x21) := this w in
  {| this := Build_Component x1 x2 x3 x4 x5 x6 x7 x8 x9 x10 x11 x12 x13 x14
    x15 x16 x17 x18 v x20 x21; rt := rt w |}.

Definition set_registrationResult (v : Js.value) (w : World) : World :=
  let '(Build_Component x1 x2 x3 x4 x5 x6 x7 x8 x9 x10 x11 x12 x13 x14 x15
    x16 x17 x18 x19 x20 x21) := this w in
  {| this := Build_Component x1 x2 x3 x4 x5 x6 x7 x8 x9 x10 x11 x12 x13 x14
    x15 x16 x17 x18 x19 v x21; rt := rt w |}.

Definition set_registrationStatus (v : Status) (w : World) : World :=
  let '(Build_Component x1 x2 x3 x4 x5 x6 x7 x8 x9 x10 x11 x12 x13 x14 x15
    x16 x17 x18 x19 x20 x21) := this w in
  {| this := Build_Component x1 x2 x3 x4 x5 x6 x7 x8 x9 x10 x11 x12 x13 x14
    x15 x16 x17 x18 x19 x20 v; rt := rt w |}.

Definition set_now (v : nat) (w : World) : World :=
  let '(Build_Runtime x1 x2 x3 x4 x5 x6 x7 x8 x9 x10 x11 x12 x13) := rt w
    in
  {| this := this w; rt := Build_Runtime v x2 x3 x4 x5 x6 x7 x8 x9 x10 x11
    x12 x13 |}.

Definition set_nextTimer (v : nat) (w : World) : World :=
  let '(Build_Runtime x1 x2 x3 x4 x5 x6 x7 x8 x9 x10 x11 x12 x13) := rt w
    in
  {| this := this w; rt := Build_Runtime x1 v x3 x4 x5 x6 x7 x8 x9 x10 x11
    x12 x13 |}.

Definition set_timers (v : gmap nat Timer) (w : World) : World :=
  let '(Build_Runtime x1 x2 x3 x4 x5 x6 x7 x8 x9 x10 x11 x12 x13) := rt w
    in
  {| this := this w; rt := Build_Runtime x1 x2 v x4 x5 x6 x7 x8 x9 x10 x11
    x12 x13 |}.

Definition set_srcObject (v : bool) (w : World) : World :=
  let '(Build_Runtime x1 x2 x3 x4 x5 x6 x7 x8 x9 x10 x11 x12 x13) := rt w
    in
  {| this := this w; rt := Build_Runtime x1 x2 x3 v x5 x6 x7 x8 x9 x10 x11
    x12 x13 |}.

Definition set_cameraRequests (v : nat) (w : World) : World :=
  let '(Build_Runtime x1 x2 x3 x4 x5 x6 x7 x8 x9 x10 x11 x12 x13) := rt w
    in
  {| this := this w; rt := Build_Runtime x1 x2 x3 x4 v x6 x7 x8 x9 x10 x11
    x12 x13 |}.

Definition set_modelLoads (v : nat) (w : World) : World :=
  let '(Build_Runtime x1 x2 x3 x4 x5 x6 x7 x8 x9 x10 x11 x12 x13) := rt w
    in
  {| this := this w; rt := Build_Runtime x1 x2 x3 x4 x5 v x7 x8 x9 x10 x11
    x12 x13 |}.

Definition set_detections (v : nat) (w : World) : World :=
  let '(Build_Runtime x1 x2 x3 x4 x5 x6 x7 x8 x9 x10 x11 x12 x13) := rt w
    in
  {| this := this w; rt := Build_Runtime x1 x2 x3 x4 x5 x6 v x8 x9 x10 x11
    x12 x13 |}.

Definition set_liveCheckIns (v : nat) (w : World) : World :=
  let '(Build_Runtime x1 x2 x3 x4 x5 x6 x7 x8 x9 x10 x11 x12 x13) := rt w
    in
  {| this := this w; rt := Build_Runtime x1 x2 x3 x4 x5 x6 x7 v x9 x10 x11
    x12 x13 |}.

Definition set_fileReads (v : nat) (w : World) : World :=
  let '(Build_Runtime x1 x2 x3 x4 x5 x6 x7 x8 x9 x10 x11 x12 x13) := rt w
    in
  {| this := this w; rt := Build_Runtime x1 x2 x3 x4 x5 x6 x7 x8 v x10 x11
    x12 x13 |}.

Definition set_fileDetections (v : nat) (w : World) : World :=
  let '(Build_Runtime x1 x2 x3 x4 x5 x6 x7 x8 x9 x10 x11 x12 x13) := rt w
    in
  {| this := this w; rt := Build_Runtime x1 x2 x3 x4 x5 x6 x7 x8 x9 v x11
    x12 x13 |}.

Definition set_fileCheckIns (v : nat) (w : World) : World :=
  let '(Build_Runtime x1 x2 x3 x4 x5 x6 x7 x8 x9 x10 x11 x12 x13) := rt w
    in
  {| this := this w; rt := Build_Runtime x1 x2 x3 x4 x5 x6 x7 x8 x9 x10 v
    x12 x13 |}.

Definition set_registrations (v : nat) (w : World) : World :=
  let '(Build_Runtime x1 x2 x3 x4 x5 x6 x7 x8 x9 x10 x11 x12 x13) := rt w
    in
  {| this := this w; rt := Build_Runtime x1 x2 x3 x4 x5 x6 x7 x8 x9 x10 x11
    v x13 |}.

Definition set_trace (v : list Action) (w : World) : World :=
  let '(Build_Runtime x1 x2 x3 x4 x5 x6 x7 x8 x9 x10 x11 x12 x13) := rt w
    in
  {| this := this w; rt := Build_Runtime x1 x2 x3 x4 x5 x6 x7 x8 x9 x10 x11
    x12 v |}.

(** The field initialisers of the class, before any view child is set. *)
Definition init : World :=
  {| this := {| videoElement := false; canvasElement := false;
                fileCanvasElement := false;
                loading := false; loaddingModels := false;
                checkInResult := Js.Str "";
                faceValid := false; faceDetecting := false;
                currentMode := camera;
                selectedFile := None; selectedDescriptor := Some [];
                detectionInterval := None; isDragging := false;
                timerHandleCheckin := None;
                isRegistrationDisabled := false;
                registrationName := ""; registrationCode := "";
                registrationFile := None; registrationLoading := false;
                registrationResult := Js.Str ""; registrationStatus := idle |};
     rt := {| now := 0; nextTimer := 1; timers := ∅;
              srcObject := false; cameraRequests := 0; modelLoads := 0;
              detections := 0; liveCheckIns := 0;
              fileReads := 0; fileDetections := 0; fileCheckIns := 0;
              registrations := 0; trace := [] |} |}.

(** ** The messages the component shows *)

Module Msg.

Definition no_video : string := "Lỗi: Không tìm thấy yếu tố video hoặc canvas.".
Definition no_face_camera : string := "Chưa phát hiện được khuôn mặt từ camera.".
Definition no_face_image : string := "Chưa phát hiện được khuôn mặt trong ảnh.".
Definition api_error : string := "Lỗi kết nối API!".
Definition checkin_failed : string := "Check-in thất bại!".
Definition checkin_ok : string := "Check-in thành công! User :  ".
Definition distance : string := " -- distance : ".
Definition need_name_code : string := "Vui lòng nhập đầy đủ họ tên và mã khách hàng.".
Definition need_image : string := "Vui lòng chọn ảnh khuôn mặt để đăng ký.".
Definition registering : string := "Đang đăng ký khách hàng...".
Definition register_ok : string := "Đăng ký khách hàng thành công!".
Definition register_failed : string := "Đăng ký khách hàng thất bại!".
Definition register_api_error : string := "Lỗi kết nối API đăng ký!".
Definition models_loading : string := "Đang tải mô hình nhận diện khuôn mặt...".
Definition models_loaded : string := "Mô hình đã tải xong.".
Definition models_failed : string :=
  "Lỗi khi tải mô hình FaceAPI! Vui lòng kiểm tra lại các tệp mô hình.".

End Msg.

(** ** The browser's timers *)

(** A timer id tested for truthiness, as in [if (this.detectionInterval)]:
    [null], [undefined] and [0] are falsy. *)
Definition handle_truthy (h : option nat) : bool :=
  match h with
  | Some id => negb (id =? 0)
  | None => false
  end.

Definition setInterval (period : nat) (w : World) : nat * World :=
  let id := nextTimer w in
  (id, set_nextTimer (S id) (set_timers (<[id := Interval (now w + period)]> (timers w)) w)).

Definition setTimeout (delay : nat) (w : World) : nat * World :=
  let id := nextTimer w in
  let w := set_trace (SetTimeout id delay :: trace w) w in
  (id, set_nextTimer (S id) (set_timers (<[id := Timeout (now w + delay)]> (timers w)) w)).

(** [clearInterval(h)]; a handle that names no active timer does nothing. *)
Definition clearInterval (h : option nat) (w : World) : World :=
  match h with
  | Some id => set_timers (delete id (timers w)) w
  | None => w
  end.

Definition log (a : Action) (w : World) : World := set_trace (a :: trace w) w.

(** ** The private helpers.  [cdr.detectChanges()] renders the template
    and writes no field; view children that appear or disappear arrive as
    events of their own. *)

Definition setLoading (value : bool) (w : World) : World := set_loading value w.

Definition setModelsLoading (value : bool) (w : World) : World :=
  set_loaddingModels value w.

Definition setFaceDetecting (value : bool) (w : World) : World :=
  set_faceDetecting value w.

Definition setResult (message : Js.value) (w : World) : World :=
  set_checkInResult message w.

Definition resetCheckInState (w : World) : World :=
  let w := set_checkInResult (Js.Str "") w in
  let w := set_faceValid false w in
  set_faceDetecting false w.

Definition resetSelectedFile (w : World) : World :=
  let w := set_selectedFile None w in
  let w := set_faceValid false w in
  let w := set_faceDetecting false w in
  set_selectedDescriptor (Some []) w.

(** ** Mode and camera control *)

Definition startCamera (w : World) : World :=
  if negb (videoElement w) then w
  else set_cameraRequests (S (cameraRequests w)) w.

(** [getUserMedia] settles: the stream is attached when the video element
    is still there; a refusal is logged to the console. *)
Definition startCamera_settled (granted : bool) (w : World) : World :=
  if granted && videoElement w then set_srcObject true w else w.

Definition stopCamera (w : World) : World :=
  if negb (videoElement w) then w
  else if srcObject w then set_srcObject false w else w.

Definition startFaceDetectionLoop (w : World) : World :=
  let w := if handle_truthy (detectionInterval w)
           then clearInterval (detectionInterval w) w
           else w in
  let '(id, w) := setInterval 100 w in
  set_detectionInterval (Some id) w.

Definition stopFaceDetectionLoop (w : World) : World :=
  let w := if handle_truthy (detectionInterval w)
           then set_detectionInterval None (clearInterval (detectionInterval w) w)
           else w in
  set_faceValid false w.

Definition toggleMode (mode : Mode) (w : World) : World :=
  let w := set_currentMode mode w in
  let w := resetCheckInState w in
  match mode with
  | camera =>
      let w := if videoElement w then startCamera w else w in
      startFaceDetectionLoop w
  | file =>
      let w := set_selectedFile None w in
      let w := set_selectedDescriptor (Some []) w in
      let w := stopCamera w in
      stopFaceDetectionLoop w
  end.

(** The setter of the [videoElement] view child. *)
Definition set_view_videoElement (present : bool) (w : World) : World :=
  let w := set_videoElement present w in
  match currentMode w with
  | camera => if present then startCamera w else w
  | file => w
  end.

Definition ngAfterViewInit (w : World) : World :=
  match currentMode w with
  | camera => startFaceDetectionLoop w
  | file => w
  end.

(** ** Face detection on the camera *)

(** [detectFace] up to its [await]. *)
Definition detectFace (w : World) : World :=
  if negb (videoElement w && canvasElement w) then w
  else
    let w := setFaceDetecting true w in
    set_detections (S (detections w)) w.

(** [detectFace] from its [await] on, for a detection that resolved. *)
Definition detectFace_resume (detection : option Detection) (w : World) : World :=
  let w :=
    match detection with
    | Some d =>
        let w := set_faceValid true w in
        let w := set_selectedDescriptor (Some (descriptor d)) w in
        if negb (loading w) && negb (handle_truthy (timerHandleCheckin w)) then
          let '(id, w) := setTimeout 3000 w in
          set_timerHandleCheckin (Some id) w
        else w
    | None => set_faceValid false w
    end in
  setFaceDetecting false w.

Definition detectFace_settled (r : Engine) (w : World) : World :=
  match r with
  | Threw => w
  | Returned detection => detectFace_resume detection w
  end.

(** ** Check-in and registration *)

Section CheckIn.

(** Number::toString of the JavaScript runtime, which the success message
    applies to the distance. *)
Variable number_toString : float -> string.

Definition setResultFromApiResponse (res : Js.value) (w : World) : World :=
  if Js.truthy res && Js.truthy (Js.get "success" res) then
    let customer := Js.get "customer" res in
    set_checkInResult
      (Js.Str (Msg.checkin_ok
               +:+ Js.toString number_toString (Js.get_opt "name" customer)
               +:+ Msg.distance
               +:+ Js.toString number_toString (Js.get_opt "distance" customer))) w
  else
    set_checkInResult
      (Js.or_else (Js.get_opt "message" res) (Js.Str Msg.checkin_failed)) w.

(** [handleCheckIn] from its [await] on: the rest of [try], or [catch],
    then [finally]. *)
Definition handleCheckIn_settled (r : Api.Settled) (w : World) : World :=
  let w :=
    match r with
    | Api.Fulfilled res =>
        let w := setResultFromApiResponse res w in
        startFaceDetectionLoop w
    | Api.Rejected err =>
        if Js.truthy (Api.body err) && Js.truthy (Js.get "message" (Api.body err))
        then setResult (Js.get "message" (Api.body err)) w
        else setResult (Js.Str Msg.api_error) w
    end in
  let w := setLoading false w in
  startFaceDetectionLoop w.

(** [handleCheckIn] up to its [await]; the flag tells whether it is
    suspended there.  A [null] descriptor makes [checkInWithDescriptor]
    reject with a TypeError before it sends anything. *)
Definition handleCheckIn (w : World) : World * bool :=
  let w := log CallHandleCheckIn w in
  if negb (videoElement w && canvasElement w) then
    (setResult (Js.Str Msg.no_video) w, false)
  else if negb (faceValid w) then
    (setResult (Js.Str Msg.no_face_camera) w, false)
  else
    let w := setLoading true w in
    let w := stopFaceDetectionLoop w in
    match selectedDescriptor w with
    | Some d =>
        let w := log (Fetch (Api.checkInWithDescriptor d)) w in
        (set_liveCheckIns (S (liveCheckIns w)) w, true)
    | None => (handleCheckIn_settled (Api.Rejected Api.TypeError) w, false)
    end.

(** The end of the callback armed by [detectFace]. *)
Definition trigger_done (w : World) : World := set_timerHandleCheckin None w.

(** The callback armed by [detectFace].  Awaiting a call that returned
    without suspending resumes in the same turn of the event loop. *)
Definition trigger (w : World) : World :=
  if negb (loading w) then
    let '(w, suspended) := handleCheckIn w in
    if suspended then w else trigger_done w
  else trigger_done w.

Definition handleFileCheckIn_settled (r : Api.Settled) (w : World) : World :=
  let w :=
    match r with
    | Api.Fulfilled res => setResultFromApiResponse res w
    | Api.Rejected _ => setResult (Js.Str Msg.api_error) w
    end in
  setLoading false w.

Definition handleFileCheckIn (w : World) : World :=
  let w := log CallHandleFileCheckIn w in
  match selectedDescriptor w with
  | None | Some [] => setResult (Js.Str Msg.no_face_image) w
  | Some d =>
      let w := setLoading true w in
      let w := log (Fetch (Api.checkInWithDescriptor d)) w in
      set_fileCheckIns (S (fileCheckIns w)) w
  end.

(** *** File handling *)

Definition processSelectedFile_finally (w : World) : World :=
  let w := setFaceDetecting false w in
  setModelsLoading false w.

Definition processSelectedFile (w : World) : World :=
  match selectedFile w with
  | None => w
  | Some _ =>
      let w := setModelsLoading true w in
      let w := setResult (Js.Str "") w in
      set_fileReads (S (fileReads w)) w
  end.

Definition onFileSelected (files : option Api.File) (w : World) : World :=
  match files with
  | None => resetSelectedFile w
  | Some f => processSelectedFile (set_selectedFile (Some f) w)
  end.

(** The file has been read and decoded ([decoded = false]: one of the two
    promises rejected); the image goes to the file canvas when there is
    one. *)
Definition processSelectedFile_decoded (decoded : bool) (w : World) : World :=
  if decoded && fileCanvasElement w then
    let w := setFaceDetecting true w in
    set_fileDetections (S (fileDetections w)) w
  else processSelectedFile_finally w.

Definition processSelectedFile_detected (r : Engine) (w : World) : World :=
  let w :=
    match r with
    | Threw => w
    | Returned None => set_faceValid false w
    | Returned (Some d) =>
        let w := set_faceValid true w in
        let w := set_selectedDescriptor (Some (descriptor d)) w in
        handleFileCheckIn w
    end in
  processSelectedFile_finally w.

(** *** Registration *)

Definition onRegistrationFileSelected (files : option Api.File) (w : World) : World :=
  let w := set_registrationFile files w in
  let w := set_registrationResult (Js.Str "") w in
  set_registrationStatus idle w.

Definition clearRegistrationFile (resetStatus : bool) (w : World) : World :=
  let w := set_registrationFile None w in
  if resetStatus then
    let w := set_registrationStatus idle w in
    set_registrationResult (Js.Str "") w
  else w.

Definition handleRegistrationSubmit (w : World) : World :=
  let name := JsString.trim (registrationName w) in
  let code := JsString.trim (registrationCode w) in
  if JsString.is_empty name || JsString.is_empty code then
    let w := set_registrationStatus error w in
    set_registrationResult (Js.Str Msg.need_name_code) w
  else
    match registrationFile w with
    | None =>
        let w := set_registrationStatus error w in
        set_registrationResult (Js.Str Msg.need_image) w
    | Some f =>
        let w := set_isRegistrationDisabled true w in
        let w := set_registrationLoading true w in
        let w := set_registrationStatus info w in
        let w := set_registrationResult (Js.Str Msg.registering) w in
        let w := log (Fetch (Api.registerCustomer name code f)) w in
        set_registrations (S (registrations w)) w
    end.

Definition handleRegistrationSubmit_failed (w : World) : World :=
  let w := set_registrationStatus error w in
  set_registrationResult (Js.Str Msg.register_api_error) w.

Definition handleRegistrationSubmit_settled (r : Api.Settled) (w : World) : World :=
  let w :=
    match r with
    | Api.Fulfilled res =>
        match Js.get_strict "success" res with
        | None => handleRegistrationSubmit_failed w     (* TypeError, caught *)
        | Some ok =>
            if Js.truthy ok then
              let w := set_registrationStatus success w in
              let w := set_registrationResult
                         (Js.or_else (Js.get "message" res) (Js.Str Msg.register_ok)) w in
              let w := set_registrationName "" w in
              let w := set_registrationCode "" w in
              clearRegistrationFile false w
            else
              let w := set_registrationStatus error w in
              set_registrationResult
                (Js.or_else (Js.get "message" res) (Js.Str Msg.register_failed)) w
        end
    | Api.Rejected _ => handleRegistrationSubmit_failed w
    end in
  let w := set_registrationLoading false w in
  set_isRegistrationDisabled false w.

(** *** Model loading *)

Definition safeLoadModels (w : World) : World :=
  let w := setModelsLoading true w in
  let w := setResult (Js.Str Msg.models_loading) w in
  set_modelLoads (S (modelLoads w)) w.

Definition safeLoadModels_settled (loaded : bool) (w : World) : World :=
  let w := if loaded then setResult (Js.Str Msg.models_loaded) w
           else setResult (Js.Str Msg.models_failed) w in
  setModelsLoading false w.

(** ** The event loop *)

(** One turn of the event loop: a timer callback, a promise the component
    awaits settling, a lifecycle hook, or the user. *)
Inductive Event : Type :=
| Advance (ms : nat)                           (* time passes *)
| Fire (id : nat)                              (* the callback of timer [id] runs *)
| DetectionDone (r : Engine)                   (* [detectFace] resumes *)
| CheckInDone (o : Api.FetchOutcome)           (* [handleCheckIn] resumes *)
| FileCheckInDone (o : Api.FetchOutcome)       (* [handleFileCheckIn] resumes *)
| RegistrationDone (o : Api.FetchOutcome)      (* [handleRegistrationSubmit] resumes *)
| FileDecoded (decoded : bool)                 (* [processSelectedFile], first awaits *)
| FileDetectionDone (r : Engine)               (* [processSelectedFile], last await *)
| ModelsLoaded (loaded : bool)
| CameraSettled (granted : bool)
| NgOnInit
| NgAfterViewInit
| ViewVideo (present : bool)
| ViewCanvas (present : bool)
| ViewFileCanvas (present : bool)
| ToggleMode (mode : Mode)
| FileSelected (files : option Api.File)
| DragOver
| DragLeave
| Drop (files : option Api.File)
| InputName (s : string)                       (* the form fields, bound by ngModel *)
| InputCode (s : string)
| RegistrationFileSelected (files : option Api.File)
| ClearRegistrationFile
| RegistrationSubmit.

(** An event that resumes a suspended call needs one; it takes it off
    the count. *)
Definition resume (count : World -> nat) (set : nat -> World -> World)
    (k : World -> World) (w : World) : option World :=
  match count w with
  | 0 => None
  | S n => Some (k (set n w))
  end.

Definition step (w : World) (e : Event) : option World :=
  match e with
  | Advance ms => Some (set_now (now w + ms) w)
  | Fire id =>
      match timers w !! id with
      | Some (Interval due) =>
          if due <=? now w then
            Some (detectFace (set_timers (<[id := Interval (now w + 100)]> (timers w)) w))
          else None
      | Some (Timeout due) =>
          if due <=? now w then
            Some (trigger (set_timers (delete id (timers w)) w))
          else None
      | None => None
      end
  | DetectionDone r => resume detections set_detections (detectFace_settled r) w
  | CheckInDone o =>
      resume liveCheckIns set_liveCheckIns
        (fun w => trigger_done (handleCheckIn_settled (Api.postForm o) w)) w
  | FileCheckInDone o =>
      resume fileCheckIns set_fileCheckIns (handleFileCheckIn_settled (Api.postForm o)) w
  | RegistrationDone o =>
      resume registrations set_registrations
        (handleRegistrationSubmit_settled (Api.postForm o)) w
  | FileDecoded decoded =>
      resume fileReads set_fileReads (processSelectedFile_decoded decoded) w
  | FileDetectionDone r =>
      resume fileDetections set_fileDetections (processSelectedFile_detected r) w
  | ModelsLoaded loaded =>
      resume modelLoads set_modelLoads (safeLoadModels_settled loaded) w
  | CameraSettled granted =>
      resume cameraRequests set_cameraRequests (startCamera_settled granted) w
  | NgOnInit => Some (safeLoadModels w)
  | NgAfterViewInit => Some (ngAfterViewInit w)
  | ViewVideo present => Some (set_view_videoElement present w)
  | ViewCanvas present => Some (set_canvasElement present w)
  | ViewFileCanvas present => Some (set_fileCanvasElement present w)
  | ToggleMode mode => Some (toggleMode mode w)
  | FileSelected files => Some (onFileSelected files w)
  | DragOver => Some (set_isDragging true w)
  | DragLeave => Some (set_isDragging false w)
  | Drop files =>
      let w := set_isDragging false w in
      match files with
      | Some f => Some (onFileSelected (Some f) w)
      | None => Some w
      end
  | InputName s => Some (set_registrationName s w)
  | InputCode s => Some (set_registrationCode s w)
  | RegistrationFileSelected files => Some (onRegistrationFileSelected files w)
  | ClearRegistrationFile => Some (clearRegistrationFile true w)
  | RegistrationSubmit => Some (handleRegistrationSubmit w)
  end.

Fixpoint run (events : list Event) (w : World) : option World :=
  match events with
  | [] => Some w
  | e :: rest =>
      match step w e with
      | Some w' => run rest w'
      | None => None
      end
  end.

End CheckIn.

(** ** What a trace holds *)

Definition is_fetch (a : Action) : bool :=
  match a with Fetch _ => true | _ => false end.

Definition is_checkin_call (a : Action) : bool :=
  match a with CallHandleCheckIn => true | _ => false end.

Definition is_arming (a : Action) : bool :=
  match a with SetTimeout _ _ => true | _ => false end.

Fixpoint count (p : Action -> bool) (t : list Action) : nat :=
  match t with
  | [] => 0
  | a :: rest => if p a then S (count p rest) else count p rest
  end.

Definition is_timeout (t : option Timer) : bool :=
  match t with Some (Timeout _) => true | _ => false end.


(** ** The timer discipline, apart from the rest of the state *)

Definition calls (w : World) : nat := count is_checkin_call (trace w).

Definition arms (w : World) : nat := count is_arming (trace w).

(** The part of a world the timers and the auto-submit trigger depend on. *)
Record Core : Type :=
  { c_next : nat;
    c_timers : gmap nat Timer;
    c_interval : option nat;
    c_handle : option nat;
    c_live : nat;
    c_calls : nat;
    c_arms : nat }.

Definition core (w : World) : Core :=
  {| c_next := nextTimer w; c_timers := timers w;
     c_interval := detectionInterval w; c_handle := timerHandleCheckin w;
     c_live := liveCheckIns w; c_calls := calls w; c_arms := arms w |}.

(** [clearInterval] under [if (this.detectionInterval)]. *)
Definition cleared (iv : option nat) (tm : gmap nat Timer) : gmap nat Timer :=
  if handle_truthy iv then from_option (λ id, delete id tm) tm iv else tm.

Definition c_start (due : nat) (c : Core) : Core :=
  {| c_next := S (c_next c);
     c_timers := <[c_next c := Interval due]> (cleared (c_interval c) (c_timers c));
     c_interval := Some (c_next c); c_handle := c_handle c;
     c_live := c_live c; c_calls := c_calls c; c_arms := c_arms c |}.

Definition c_stop (c : Core) : Core :=
  {| c_next := c_next c;
     c_timers := cleared (c_interval c) (c_timers c);
     c_interval := if handle_truthy (c_interval c) then None else c_interval c;
     c_handle := c_handle c;
     c_live := c_live c; c_calls := c_calls c; c_arms := c_arms c |}.

Definition c_arm (due : nat) (c : Core) : Core :=
  {| c_next := S (c_next c);
     c_timers := <[c_next c := Timeout due]> (c_timers c);
     c_interval := c_interval c; c_handle := Some (c_next c);
     c_live := c_live c; c_calls := c_calls c; c_arms := S (c_arms c) |}.

Definition c_set_timers (tm : gmap nat Timer) (c : Core) : Core :=
  {| c_next := c_next c; c_timers := tm;
     c_interval := c_interval c; c_handle := c_handle c;
     c_live := c_live c; c_calls := c_calls c; c_arms := c_arms c |}.

Definition c_tick (id due : nat) (c : Core) : Core :=
  c_set_timers (<[id := Interval due]> (c_timers c)) c.

Definition c_expire (id : nat) (c : Core) : Core :=
  c_set_timers (delete id (c_timers c)) c.

Definition c_call (c : Core) : Core :=
  {| c_next := c_next c; c_timers := c_timers c;
     c_interval := c_interval c; c_handle := c_handle c;
     c_live := c_live c; c_calls := S (c_calls c); c_arms := c_arms c |}.

Definition c_set_live (l : nat) (c : Core) : Core :=
  {| c_next := c_next c; c_timers := c_timers c;
     c_interval := c_interval c; c_handle := c_handle c;
     c_live := l; c_calls := c_calls c; c_arms := c_arms c |}.

Definition c_done (c : Core) : Core :=
  {| c_next := c_next c; c_timers := c_timers c;
     c_interval := c_interval c; c_handle := None;
     c_live := c_live c; c_calls := c_calls c; c_arms := c_arms c |}.

(** Whether the trigger named by the handle is still to fire. *)
Definition pending (c : Core) : nat :=
  match c_handle c with
  | Some id => if is_timeout (c_timers c !! id) then 1 else 0
  | None => 0
  end.

(** Timer ids are positive and handed out once; the loop's handle and the
    trigger's handle never name the same timer; every interval in the
    map is the one [detectionInterval] names. *)
Record Ids (c : Core) : Prop :=
  { next_pos : 0 < c_next c;
    timer_ids : ∀ id t, c_timers c !! id = Some t → 0 < id < c_next c;
    interval_id : ∀ id, c_interval c = Some id → 0 < id < c_next c;
    handle_id : ∀ id, c_handle c = Some id → 0 < id < c_next c;
    ids_distinct : ∀ id, c_interval c = Some id → c_handle c ≠ Some id;
    one_loop : ∀ id due, c_timers c !! id = Some (Interval due) → c_interval c = Some id }.

(** Between two turns of the event loop. *)
Record Idle (c : Core) : Prop :=
  { idle_ids : Ids c;
    one_trigger : ∀ id due, c_timers c !! id = Some (Timeout due) →
                  c_handle c = Some id ∧ c_live c = 0;
    one_live : c_live c ≤ 1 ∧ (c_live c = 1 → is_Some (c_handle c));
    once : c_calls c + pending c ≤ c_arms c }.

(** Inside the trigger's callback, before its last statement; [k] calls
    of [handleCheckIn] are still owed to the arming. *)
Record Firing (k : nat) (c : Core) : Prop :=
  { firing_ids : Ids c;
    no_trigger : ∀ id due, c_timers c !! id ≠ Some (Timeout due);
    no_live : c_live c = 0;
    handle_kept : is_Some (c_handle c);
    budget : c_calls c + k ≤ c_arms c }.

Definition Inv (w : World) : Prop := Idle (core w).

(** The events that can write a timer, a timer handle, or the number of
    live check-ins. *)
Definition touches_timers (e : Event) : bool :=
  match e with
  | Fire _ | DetectionDone _ | CheckInDone _ | NgAfterViewInit | ToggleMode _ => true
  | _ => false
  end.

(** Whether a settled detection arms the trigger. *)
Definition arming (r : Engine) (w : World) : bool :=
  match r with
  | Returned (Some _) => negb (loading w) && negb (handle_truthy (timerHandleCheckin w))
  | _ => false
  end.

(** Whether [handleCheckIn] gets past its two guards. *)
Definition submits (w : World) : bool :=
  videoElement w && canvasElement w && faceValid w.

(** ** face-detection.service.ts *)

Module FaceService.

(** The service is a singleton: its flag, the calls of [loadModels]
    suspended at [Promise.all], and the calls of [loadFromUri] so far. *)
Record Service : Type :=
  { modelsLoaded : bool;
    pendingLoads : nat;
    netLoads : nat }.

Definition fresh : Service :=
  {| modelsLoaded := false; pendingLoads := 0; netLoads := 0 |}.

(** [loadModels] up to its [await]: three downloads, unless the flag is
    set. *)
Definition loadModels (s : Service) : Service :=
  if modelsLoaded s then s
  else {| modelsLoaded := modelsLoaded s;
          pendingLoads := S (pendingLoads s);
          netLoads := netLoads s + 3 |}.

(** [Promise.all] settles: the flag is set when the three downloads
    succeeded, and reset (and the error thrown again) otherwise. *)
Definition loadModels_settled (loaded : bool) (s : Service) : Service :=
  {| modelsLoaded := loaded;
     pendingLoads := pred (pendingLoads s);
     netLoads := netLoads s |}.

(** [detectSingleFaceFromVideo] and [detectSingleFaceFromCanvas] up to
    their first [await]: without the flag they call [loadModels]. *)
Definition detect_start (s : Service) : Service :=
  if modelsLoaded s then s else loadModels s.

Inductive Event : Type :=
| Call                      (* [loadModels] is called *)
| Detect                    (* one of the two detection methods is called *)
| Settled (loaded : bool).  (* the [Promise.all] of a suspended call settles *)

Definition step (s : Service) (e : Event) : option Service :=
  match e with
  | Call => Some (loadModels s)
  | Detect => Some (detect_start s)
  | Settled loaded =>
      match pendingLoads s with
      | 0 => None
      | S _ => Some (loadModels_settled loaded s)
      end
  end.

Fixpoint run (events : list Event) (s : Service) : option Service :=
  match events with
  | [] => Some s
  | e :: rest =>
      match step s e with
      | Some s' => run rest s'
      | None => None
      end
  end.

(** How the chain of face-api calls settles. *)
Inductive FaceApi : Type :=
| ApiThrew
| ApiReturned (detection : option Detection).

(** The [try] block of [detectSingleFaceFromVideo]: the landmarks are
    drawn when asked for, with a canvas and a detection; an exception of
    face-api or of the drawing ([drawn = false]) is caught and gives
    [null]. *)
Definition detect_try (draw canvas : bool) (fa : FaceApi) (drawn : bool) : option Detection :=
  match fa with
  | ApiThrew => None
  | ApiReturned None => None
  | ApiReturned (Some d) =>
      if draw && canvas then (if drawn then Some d else None) else Some d
  end.

(** [detectSingleFaceFromVideo]; [loaded] is how the [loadModels] it
    awaits settles when the flag is not set. *)
Definition detectSingleFaceFromVideo (draw canvas : bool) (loaded : bool)
    (fa : FaceApi) (drawn : bool) (s : Service) : Engine :=
  if modelsLoaded s then Returned (detect_try draw canvas fa drawn)
  else if loaded then Returned (detect_try draw canvas fa drawn)
  else Threw.

(** [detectSingleFaceFromCanvas] tests [options.draw && detection] only. *)
Definition detectSingleFaceFromCanvas (draw : bool) (loaded : bool)
    (fa : FaceApi) (drawn : bool) (s : Service) : Engine :=
  detectSingleFaceFromVideo draw true loaded fa drawn s.




End FaceService.

(** ** The flags of the component *)

(** The requests the component sends: a check-in by descriptor, or a
    registration with a name and a code that are not empty. *)
Definition known (a : Action) : Prop :=
  match a with
  | Fetch r =>
      (∃ d, r = Api.checkInWithDescriptor d)
      ∨ (∃ name code f, r = Api.registerCustomer name code f
                        ∧ name ≠ "" ∧ code ≠ "")
  | _ => True
  end.

(** What the busy flags, the descriptor buffer and the trace promise
    between two turns of the event loop. *)
Record Flags (w : World) : Prop :=
  { loading_in_flight : loading w = true → 0 < liveCheckIns w + fileCheckIns w;
    descriptor_set : is_Some (selectedDescriptor w);
    disabled_while_loading : isRegistrationDisabled w = registrationLoading w;
    registering_in_flight : registrationLoading w = true → 0 < registrations w;
    models_in_flight :
      loaddingModels w = true → 0 < modelLoads w + fileReads w + fileDetections w;
    requests_known : Forall known (trace w) }.

(** The white space of one byte that [trim] strips. *)
Definition blank (a : ascii) : bool :=
  bool_decide (nat_of_ascii a ∈ [9; 10; 11; 12; 13; 32]).

(** What the live path shows for a response that is not ok. *)
Definition rejection_shown (r : Api.Response) : Js.value :=
  if JsString.includes "application/json" (default "" (Api.content_type r)) then
    match Api.json r with
    | Some j =>
        if Js.truthy j && Js.truthy (Js.get "message" j)
        then Js.get "message" j
        else Js.Str Msg.api_error
    | None => Js.Str Msg.api_error
    end
  else Js.Str Msg.api_error.

(** What [handleCheckIn] shows when one of its guards stops it. *)
Definition guard_message (w : World) : string :=
  if videoElement w && canvasElement w then Msg.no_face_camera else Msg.no_video.

(** ** Sample inputs *)

(** A rendering of numbers that agrees with JavaScript on 0.32. *)
Definition sample_number_toString (x : float) : string :=
  if PrimFloat.eqb x 0.32%float then "0.32" else "0".

(** A detection (a real descriptor has 128 entries). *)
Definition sample_detection : Detection :=
  {| descriptor := [0.5%float; 0.25%float] |}.

(** The component after its view is initialised in camera mode: the
    detection loop runs as timer 1. *)
Definition live_session : list Event :=
  [ViewVideo true; ViewCanvas true; NgAfterViewInit].

(** A first tick at 100 ms and its positive detection, which arms the
    trigger as timer 2, due at 3100 ms. *)
Definition positive_tick : list Event :=
  [Advance 100; Fire 1; DetectionDone (Returned (Some sample_detection))].

Definition json_response (status : nat) (body : Js.value) : Api.FetchOutcome :=
  Api.Responded {| Api.status := status; Api.statusText := "";
                   Api.content_type := Some "application/json";
                   Api.json := Some body |}.

Definition alice : Js.value :=
  Js.Obj [("success", Js.Bool true);
          ("customer", Js.Obj [("name", Js.Str "Alice");
                               ("distance", Js.Num 0.32%float)])].

Definition not_recognized : Js.value :=
  Js.Obj [("message", Js.Str "face not recognized")].

Definition sample_file : Api.File :=
  {| Api.file_name := "face.jpg"; Api.file_bytes := [] |}.

(** The world a list of events leads to from the initial one. *)
Definition after (events : list Event) : World :=
  default init (run sample_number_toString events init).

(** A detection is in flight and the next tick is due. *)
Definition ticking : World :=
  after (live_session ++ [Advance 100; Fire 1; Advance 100]).

(** The trigger is armed and due. *)
Definition armed : World :=
  after (live_session ++ positive_tick ++ [Advance 3000]).

(** The trigger has fired and the live check-in is in flight. *)
Definition submitted : World :=
  after (live_session ++ positive_tick ++ [Advance 3000; Fire 2]).

(** An image has been selected and decoded, and its detection is in
    flight. *)
Definition file_detecting : World :=
  after [ViewFileCanvas true; ToggleMode file; FileSelected (Some sample_file);
         FileDecoded true].

(** Two ticks, 100 ms apart, with no detection returning in between. *)
Definition overlapping_ticks : list Event :=
  live_session ++ [Advance 100; Fire 1; Advance 100; Fire 1].

(** The trigger is armed at 100 ms, the mode is switched 1000 ms later,
    and the timer fires 3000 ms after the arming. *)
Definition switch_scenario : list Event :=
  live_session ++ positive_tick
  ++ [Advance 1000; ToggleMode file; Advance 2000; Fire 2].

(** A detection is in flight when the loop is stopped, and returns a face
    afterwards. *)
Definition late_detection : list Event :=
  live_session
  ++ [Advance 100; Fire 1; ToggleMode file;
      DetectionDone (Returned (Some sample_detection))].

(** An ok response of a proxy, which declares no JSON. *)
Definition html_ok : Api.Response :=
  {| Api.status := 200; Api.statusText := "OK";
     Api.content_type := Some "text/html"; Api.json := None |}.

(** A gateway's error page. *)
Definition html_error : Api.Response :=
  {| Api.status := 502; Api.statusText := "Bad Gateway";
     Api.content_type := Some "text/html"; Api.json := None |}.

(** The camera has been asked for and the user has not answered yet. *)
Definition camera_pending : World := after live_session.

(** The trigger is armed and due, and the face has left the picture
    100 ms after the arming. *)
Definition face_lost_scenario : list Event :=
  live_session ++ positive_tick
  ++ [Advance 100; Fire 1; DetectionDone (Returned None); Advance 2900].

Definition face_lost : World := after face_lost_scenario.

(** The trigger is armed and due while the check-in of a still image is
    in flight. *)
Definition file_checking_scenario : list Event :=
  live_session ++ positive_tick
  ++ [ToggleMode file; ViewFileCanvas true; FileSelected (Some sample_file);
      FileDecoded true; FileDetectionDone (Returned (Some sample_detection));
      Advance 3000].

Definition file_checking : World := after file_checking_scenario.

(** An image has been selected and is being read; the file canvas is not
    in the view. *)
Definition file_reading : World :=
  after [ToggleMode file; FileSelected (Some sample_file)].

(** The models are loading and an image is being read. *)
Definition models_and_file : World :=
  after [NgOnInit; ToggleMode file; FileSelected (Some sample_file)].

(** The registration form, filled in with spaces around the name. *)
Definition form_filled : World :=
  after [InputName "  Ann "; InputCode "A1";
         RegistrationFileSelected (Some sample_file)].

(** The same form with a name of two spaces. *)
Definition form_blank : World :=
  after [InputName "  "; InputCode "A1";
         RegistrationFileSelected (Some sample_file)].

(** The service once its models are loaded. *)
Definition models_ready : FaceService.Service :=
  {| FaceService.modelsLoaded := true; FaceService.pendingLoads := 0;
     FaceService.netLoads := 3 |}.


(** ** Tactics *)

(** Unfolds the methods and the field assignments, and nothing of the
    libraries. *)
Ltac norm :=
  lazy beta iota zeta delta
   [this rt
    videoElement canvasElement fileCanvasElement loading loaddingModels
    checkInResult faceValid faceDetecting currentMode selectedFile
    selectedDescriptor detectionInterval isDragging timerHandleCheckin isRegistrationDisabled
    registrationName registrationCode registrationFile registrationLoading registrationResult
    registrationStatus now nextTimer timers srcObject
    cameraRequests modelLoads detections liveCheckIns fileReads
    fileDetections fileCheckIns registrations trace
    set_videoElement set_canvasElement set_fileCanvasElement set_loading
    set_loaddingModels set_checkInResult set_faceValid set_faceDetecting
    set_currentMode set_selectedFile set_selectedDescriptor set_detectionInterval
    set_isDragging set_timerHandleCheckin set_isRegistrationDisabled set_registrationName
    set_registrationCode set_registrationFile set_registrationLoading set_registrationResult
    set_registrationStatus set_now set_nextTimer set_timers
    set_srcObject set_cameraRequests set_modelLoads set_detections
    set_liveCheckIns set_fileReads set_fileDetections set_fileCheckIns
    set_registrations set_trace
    setLoading setModelsLoading setFaceDetecting setResult log
    resume toggleMode ngAfterViewInit set_view_videoElement
    startFaceDetectionLoop stopFaceDetectionLoop startCamera startCamera_settled
    stopCamera resetCheckInState resetSelectedFile clearInterval setInterval
    setTimeout detectFace_settled detectFace_resume detectFace
    trigger trigger_done handleCheckIn handleCheckIn_settled
    handleFileCheckIn handleFileCheckIn_settled setResultFromApiResponse
    processSelectedFile_finally processSelectedFile onFileSelected
    processSelectedFile_decoded processSelectedFile_detected
    onRegistrationFileSelected clearRegistrationFile handleRegistrationSubmit
    handleRegistrationSubmit_failed handleRegistrationSubmit_settled
    safeLoadModels safeLoadModels_settled
    arming submits core calls arms c_start c_stop c_arm c_done c_call c_tick c_expire
    c_set_live c_set_timers cleared handle_truthy
    c_next c_timers c_interval c_handle c_live c_calls c_arms
    from_option fst snd negb andb orb Nat.eqb] in *.

(** Reads the fields of a world given field by field, in the hypotheses. *)
Ltac project :=
  lazy beta iota delta
   [this rt
    videoElement canvasElement fileCanvasElement loading loaddingModels
    checkInResult faceValid faceDetecting currentMode selectedFile
    selectedDescriptor detectionInterval isDragging timerHandleCheckin isRegistrationDisabled
    registrationName registrationCode registrationFile registrationLoading registrationResult
    registrationStatus now nextTimer timers srcObject
    cameraRequests modelLoads detections liveCheckIns fileReads
    fileDetections fileCheckIns registrations trace] in * |-.

(** Once the tests a method makes have been decided (by [destruct ... eqn:?]
    on the fields it reads), gives the world field by field, so that the
    method computes. *)
Ltac fields w :=
  destruct w as [[] []]; project; simplify_eq; norm; simplify_eq.

(** Proves one by one the promises of [Flags] about a world given field
    by field. *)
Ltac flags :=
  split; norm; intros; simplify_eq; try done; try lia; try (by eexists);
  repeat (apply Forall_cons; split; [first [exact I|left; by eexists]|]); try done.

(** ** The timer discipline is kept *)

Section Timers.

Implicit Types (c : Core) (tm : gmap nat Timer) (iv : option nat).

(** [clearInterval] only removes, and it removes the loop's interval. *)
Lemma cleared_lookup iv tm id t : cleared iv tm !! id = Some t → tm !! id = Some t.
Proof.
  unfold cleared. destruct (handle_truthy iv); [|done].
  destruct iv as [i|]; cbn; [|done].
  rewrite lookup_delete. by case_decide.
Qed.

Lemma cleared_interval c id due :
  Ids c → cleared (c_interval c) (c_timers c) !! id ≠ Some (Interval due).
Proof.
  intros I L. pose proof (cleared_lookup _ _ _ _ L) as L'.
  pose proof (one_loop _ I _ _ L') as E.
  pose proof (interval_id _ I _ E) as B.
  revert L. unfold cleared, handle_truthy. rewrite E. cbn.
  destruct (id =? 0) eqn:Z; cbn.
  - apply Nat.eqb_eq in Z. lia.
  - by rewrite lookup_delete_eq.
Qed.

Lemma pending_le c c' :
  c_handle c' = c_handle c →
  (∀ id due, c_timers c' !! id = Some (Timeout due) → c_timers c !! id = Some (Timeout due)) →
  pending c' ≤ pending c.
Proof.
  intros Eh Sub. unfold pending. rewrite Eh. destruct (c_handle c) as [i|]; [|done].
  destruct (c_timers c' !! i) as [[d|d]|] eqn:E; cbn; try (case_match; lia).
  by rewrite (Sub _ _ E).
Qed.

(** Starting and stopping the loop. *)
Lemma Ids_start due c : Ids c → Ids (c_start due c).
Proof.
  intros I. pose proof (next_pos _ I). split; cbn.
  - lia.
  - intros id t. rewrite lookup_insert. case_decide; simplify_eq; [lia|].
    intros L%cleared_lookup. pose proof (timer_ids _ I _ _ L). lia.
  - intros id [= <-]. lia.
  - intros id E. pose proof (handle_id _ I _ E). lia.
  - intros id [= <-] E. pose proof (handle_id _ I _ E). lia.
  - intros id d. rewrite lookup_insert. case_decide; simplify_eq; [done|].
    intros L. by destruct (cleared_interval _ _ _ I L).
Qed.

Lemma Ids_stop c : Ids c → Ids (c_stop c).
Proof.
  intros I. split; cbn.
  - apply I.
  - intros id t L%cleared_lookup. by apply (timer_ids _ I _ t).
  - intros id. destruct (handle_truthy _); [done|]. apply I.
  - apply I.
  - intros id. destruct (handle_truthy _); [done|]. apply I.
  - intros id d L. by destruct (cleared_interval _ _ _ I L).
Qed.

Lemma Idle_start due c : Idle c → Idle (c_start due c).
Proof.
  intros [I T L O]. split; cbn.
  - by apply Ids_start.
  - intros id d. rewrite lookup_insert. case_decide; simplify_eq; [done|].
    intros E%cleared_lookup. eauto.
  - done.
  - etrans; [|exact O]. apply Nat.add_le_mono_l, pending_le; cbn; [done|].
    intros id d. rewrite lookup_insert. case_decide; simplify_eq; [done|].
    apply cleared_lookup.
Qed.

Lemma Idle_stop c : Idle c → Idle (c_stop c).
Proof.
  intros [I T L O]. split; cbn.
  - by apply Ids_stop.
  - intros id d E%cleared_lookup. eauto.
  - done.
  - etrans; [|exact O]. apply Nat.add_le_mono_l, pending_le; cbn; [done|].
    intros id d. apply cleared_lookup.
Qed.

Lemma falsy_handle c : Ids c → handle_truthy (c_handle c) = false → c_handle c = None.
Proof.
  intros I. destruct (c_handle c) as [i|] eqn:E; [|done].
  pose proof (handle_id _ I _ E). cbn. destruct (i =? 0) eqn:Z; [|done].
  apply Nat.eqb_eq in Z. lia.
Qed.

(** Arming the trigger, which [detectFace] does only when it finds no
    handle. *)
Lemma Idle_arm due c :
  Idle c → handle_truthy (c_handle c) = false → Idle (c_arm due c).
Proof.
  intros [I T L O] F. pose proof (falsy_handle _ I F) as N.
  pose proof (next_pos _ I).
  assert (c_live c = 0) as Z.
  { destruct L as [L1 L2]. destruct (decide (c_live c = 1)) as [E|]; [|lia].
    destruct (L2 E) as [? ?]. congruence. }
  split; cbn.
  - split; cbn.
    + lia.
    + intros id t. rewrite lookup_insert. case_decide; simplify_eq; [lia|].
      intros E. pose proof (timer_ids _ I _ _ E). lia.
    + intros id E. pose proof (interval_id _ I _ E). lia.
    + intros id [= <-]. lia.
    + intros id E [= <-]. pose proof (interval_id _ I _ E). lia.
    + intros id d. rewrite lookup_insert. case_decide; simplify_eq; [done|]. apply I.
  - intros id d. rewrite lookup_insert. case_decide; simplify_eq; [done|].
    intros E. destruct (T _ _ E). congruence.
  - split; [lia|]. intros _. by eexists.
  - unfold pending in *. rewrite N in O. cbn. rewrite lookup_insert_eq. cbn. lia.
Qed.

Lemma Idle_tick id due due' c :
  Idle c → c_timers c !! id = Some (Interval due) → Idle (c_tick id due' c).
Proof.
  intros [I T L O] E. split; cbn.
  - split; cbn; try apply I.
    + intros i t. rewrite lookup_insert. case_decide; simplify_eq; [|apply I].
      intros _. by apply (timer_ids _ I _ _ E).
    + intros i d. rewrite lookup_insert. case_decide; simplify_eq; [|apply I].
      intros _. by apply (one_loop _ I _ _ E).
  - intros i d. rewrite lookup_insert. case_decide; simplify_eq; [done|]. apply T.
  - done.
  - etrans; [|exact O]. apply Nat.add_le_mono_l, pending_le; cbn; [done|].
    intros i d. rewrite lookup_insert. case_decide; simplify_eq; done.
Qed.

(** The trigger's timer fires; a live check-in settles. *)
Lemma Firing_expire id due c :
  Idle c → c_timers c !! id = Some (Timeout due) → Firing 1 (c_expire id c).
Proof.
  intros [I T L O] E. destruct (T _ _ E) as [Eh El]. split; cbn.
  - split; cbn; try apply I.
    + intros i t. rewrite lookup_delete. case_decide; [done|]. apply I.
    + intros i d. rewrite lookup_delete. case_decide; [done|]. apply I.
  - intros i d. rewrite lookup_delete. case_decide; simplify_eq; [done|].
    intros E'. destruct (T _ _ E'). congruence.
  - done.
  - by eexists.
  - unfold pending in O. rewrite Eh, E in O. cbn in O. lia.
Qed.

Lemma Firing_resume n c : Idle c → c_live c = S n → Firing 0 (c_set_live n c).
Proof.
  intros [I T [L1 L2] O] E. split; cbn.
  - by destruct I.
  - intros i d E'. destruct (T _ _ E'). lia.
  - lia.
  - apply L2. lia.
  - lia.
Qed.

Lemma Firing_call k c : Firing (S k) c → Firing k (c_call c).
Proof. intros [I T L H B]. split; cbn; try done. by destruct I. lia. Qed.

Lemma Firing_start k due c : Firing k c → Firing k (c_start due c).
Proof.
  intros [I T L H B]. split; cbn; try done.
  - by apply Ids_start.
  - intros id d. rewrite lookup_insert. case_decide; simplify_eq; [done|].
    intros E%cleared_lookup. by destruct (T _ _ E).
Qed.

Lemma Firing_stop k c : Firing k c → Firing k (c_stop c).
Proof.
  intros [I T L H B]. split; cbn; try done.
  - by apply Ids_stop.
  - intros id d E%cleared_lookup. by destruct (T _ _ E).
Qed.

Lemma Idle_done k c : Firing k c → Idle (c_done c).
Proof.
  intros [I T L H B]. split; cbn.
  - destruct I. split; cbn; try done.
  - intros id d E. by destruct (T _ _ E).
  - rewrite L. split; [lia|done].
  - unfold pending. cbn. lia.
Qed.

Lemma Idle_suspend c : Firing 0 c → Idle (c_set_live (S (c_live c)) c).
Proof.
  intros [I T L H B]. split; cbn.
  - by destruct I.
  - intros id d E. by destruct (T _ _ E).
  - rewrite L. split; [lia|done].
  - unfold pending. cbn. destruct (c_handle c) as [i|]; [|lia].
    destruct (c_timers c !! i) as [[d|d]|] eqn:E; cbn; try lia.
    by destruct (T _ _ E).
Qed.

Lemma cleared_timeout (c : Core) id due :
  Idle c → c_timers c !! id = Some (Timeout due) →
  cleared (c_interval c) (c_timers c) !! id = Some (Timeout due).
Proof.
  intros [I T _ _] L. unfold cleared. destruct (handle_truthy _); [|done].
  destruct (c_interval c) as [i|] eqn:E; cbn; [|done].
  rewrite lookup_delete_ne; [done|]. intros ->.
  destruct (T _ _ L) as [H _]. by apply (ids_distinct _ I _ E).
Qed.

Lemma stopped_interval (c : Core) : Ids c → c_interval (c_stop c) = None.
Proof.
  intros I. cbn. unfold handle_truthy.
  destruct (c_interval c) as [i|] eqn:E; [|done].
  pose proof (interval_id _ I _ E). destruct (i =? 0) eqn:Z; [|done].
  apply Nat.eqb_eq in Z. lia.
Qed.

End Timers.

(** ** What each method does to the timers *)

Section Steps.

Variable number_toString : float → string.

Lemma core_set_timers tm w : core (set_timers tm w) = c_set_timers tm (core w).
Proof. by destruct w as [[] []]. Qed.

Lemma core_set_detections n w : core (set_detections n w) = core w.
Proof. by destruct w as [[] []]. Qed.

Lemma core_set_liveCheckIns n w : core (set_liveCheckIns n w) = c_set_live n (core w).
Proof. by destruct w as [[] []]. Qed.

Lemma core_trigger_done w : core (trigger_done w) = c_done (core w).
Proof. by destruct w as [[] []]. Qed.

Lemma core_startFaceDetectionLoop w :
  core (startFaceDetectionLoop w) = c_start (now w + 100) (core w).
Proof. destruct (detectionInterval w) as [[|i]|] eqn:?; by fields w. Qed.

Lemma core_stopFaceDetectionLoop w :
  core (stopFaceDetectionLoop w) = c_stop (core w).
Proof. destruct (detectionInterval w) as [[|i]|] eqn:?; by fields w. Qed.

Lemma core_detectFace w : core (detectFace w) = core w.
Proof. destruct (videoElement w) eqn:?, (canvasElement w) eqn:?; by fields w. Qed.

Lemma core_toggleMode mode w :
  core (toggleMode mode w) =
  match mode with
  | camera => c_start (now w + 100) (core w)
  | file => c_stop (core w)
  end.
Proof.
  destruct mode, (videoElement w) eqn:?, (srcObject w) eqn:?,
    (detectionInterval w) as [[|i]|] eqn:?; by fields w.
Qed.

Lemma core_ngAfterViewInit w :
  core (ngAfterViewInit w) =
  match currentMode w with
  | camera => c_start (now w + 100) (core w)
  | file => core w
  end.
Proof.
  destruct (currentMode w) eqn:?, (detectionInterval w) as [[|i]|] eqn:?; by fields w.
Qed.

Lemma core_detectFace_settled r w :
  core (detectFace_settled r w) =
  if arming r w then c_arm (now w + 3000) (core w) else core w.
Proof.
  destruct r as [|[d|]], (loading w) eqn:?,
    (timerHandleCheckin w) as [[|i]|] eqn:?; by fields w.
Qed.

Lemma core_handleCheckIn_settled r w :
  core (handleCheckIn_settled number_toString r w) =
  match r with
  | Api.Fulfilled _ => c_start (now w + 100) (c_start (now w + 100) (core w))
  | Api.Rejected _ => c_start (now w + 100) (core w)
  end.
Proof.
  destruct r as [res|err]; unfold handleCheckIn_settled, setResultFromApiResponse.
  - destruct (Js.truthy res && _), (detectionInterval w) as [[|i]|] eqn:?,
      (nextTimer w) as [|n] eqn:?; by fields w.
  - destruct (Js.truthy (Api.body err) && _), (detectionInterval w) as [[|i]|] eqn:?;
      by fields w.
Qed.

Lemma core_trigger w :
  core (trigger number_toString w) =
  if loading w then c_done (core w)
  else if negb (submits w) then c_done (c_call (core w))
  else
    let c := c_stop (c_call (core w)) in
    match selectedDescriptor w with
    | Some _ => c_set_live (S (c_live c)) c
    | None => c_done (c_start (now w + 100) c)
    end.
Proof.
  destruct (loading w) eqn:?, (videoElement w) eqn:?, (canvasElement w) eqn:?,
    (faceValid w) eqn:?, (selectedDescriptor w) eqn:?,
    (detectionInterval w) as [[|i]|] eqn:?; by fields w.
Qed.

(** The other events leave the timers alone. *)
Lemma core_frame w e w' :
  touches_timers e = false → step number_toString w e = Some w' → core w' = core w.
Proof.
  intros T Hs. destruct e; try discriminate T; clear T; unfold step, resume in Hs.
  - by fields w.
  - destruct (fileCheckIns w) eqn:?; [by fields w|].
    unfold handleFileCheckIn_settled, setResultFromApiResponse in Hs.
    destruct (Api.postForm o) as [res|err]; [destruct (Js.truthy res && _)|]; by fields w.
  - destruct (registrations w) eqn:?; [by fields w|].
    unfold handleRegistrationSubmit_settled in Hs.
    destruct (Api.postForm o) as [res|err];
      [destruct (Js.get_strict _ res) as [ok|]; [destruct (Js.truthy ok)|]|];
      by fields w.
  - destruct (fileReads w) eqn:?, decoded, (fileCanvasElement w) eqn:?; by fields w.
  - destruct (fileDetections w) eqn:?, r as [|[[[|x d]]|]]; by fields w.
  - destruct (modelLoads w) eqn:?, loaded; by fields w.
  - destruct (cameraRequests w) eqn:?, granted, (videoElement w) eqn:?; by fields w.
  - by fields w.
  - destruct present, (currentMode w) eqn:?; by fields w.
  - by fields w.
  - by fields w.
  - destruct files, (selectedFile w) eqn:?; by fields w.
  - by fields w.
  - by fields w.
  - destruct files; by fields w.
  - by fields w.
  - by fields w.
  - by fields w.
  - by fields w.
  - unfold handleRegistrationSubmit in Hs.
    destruct (JsString.is_empty _ || _), (registrationFile w) eqn:?; by fields w.
Qed.

End Steps.

(** ** The discipline holds in every reachable world *)

Section Reachable.

Variable number_toString : float → string.

(** The initial world keeps the discipline, and so does every step. *)
Lemma Inv_init : Inv init.
Proof.
  split; [split|..]; cbn; try done; lia.
Qed.

Lemma arming_falsy r w : arming r w = true → handle_truthy (timerHandleCheckin w) = false.
Proof.
  destruct r as [|[d|]]; cbn; try done.
  intros [_ H]%andb_prop. by apply negb_true_iff in H.
Qed.

(** The trigger's callback, from the removal of its timer to its last
    statement or to the [await] inside [handleCheckIn]. *)
Lemma trigger_Idle w : Firing 1 (core w) → Idle (core (trigger number_toString w)).
Proof.
  intros F. rewrite core_trigger.
  destruct (loading w); [by apply (Idle_done 1)|].
  destruct (negb (submits w)); [by apply (Idle_done 0), Firing_call|].
  cbv zeta. destruct (selectedDescriptor w).
  - by apply Idle_suspend, Firing_stop, Firing_call.
  - by apply (Idle_done 0), Firing_start, Firing_stop, Firing_call.
Qed.

Lemma step_Inv w e w' : Inv w → step number_toString w e = Some w' → Inv w'.
Proof.
  unfold Inv. intros I S. destruct (touches_timers e) eqn:T;
    [|by rewrite (core_frame _ _ _ _ T S)].
  destruct e; try discriminate T; clear T; unfold step in S.
  - destruct (timers w !! id) as [[due|due]|] eqn:L; [| |done];
      destruct (due <=? now w); simplify_eq.
    + rewrite core_detectFace, core_set_timers. by apply (Idle_tick _ due).
    + apply trigger_Idle. rewrite core_set_timers. by apply (Firing_expire _ due).
  - unfold resume in S. destruct (detections w); simplify_eq.
    rewrite core_detectFace_settled, core_set_detections.
    destruct (arming _ _) eqn:A; [|done].
    apply Idle_arm; [done|]. apply arming_falsy in A. by destruct w as [[] []].
  - unfold resume in S. destruct (liveCheckIns w) as [|n] eqn:L; simplify_eq.
    cbv beta. rewrite core_trigger_done, core_handleCheckIn_settled, core_set_liveCheckIns.
    assert (Firing 0 (c_set_live n (core w))) by by apply Firing_resume.
    destruct (Api.postForm o); apply (Idle_done 0); by repeat apply Firing_start.
  - simplify_eq. rewrite core_ngAfterViewInit. destruct (currentMode w); [|done].
    by apply Idle_start.
  - simplify_eq. rewrite core_toggleMode.
    destruct mode; [by apply Idle_start|by apply Idle_stop].
Qed.

Lemma run_Inv events w w' : Inv w → run number_toString events w = Some w' → Inv w'.
Proof.
  revert w. induction events as [|e events IH]; intros w I R; cbn in R.
  - by simplify_eq.
  - destruct (step number_toString w e) as [w1|] eqn:S; [|done].
    eauto using step_Inv.
Qed.

Lemma reachable_Inv events w : run number_toString events init = Some w → Inv w.
Proof. apply run_Inv, Inv_init. Qed.

End Reachable.

(** ** Properties of the component *)

Section Properties.

Variable number_toString : float → string.

(** *** The detection loop *)

(** C1 (as amended): every tick that finds the video and the canvas
    element starts a detection attempt, whether or not an earlier attempt
    has returned; the tick is not skipped, and the number of attempts in
    flight grows by one. *)
Theorem tick_starts_detection (w : World) (id due : nat) :
  timers w !! id = Some (Interval due) → due ≤ now w →
  videoElement w = true → canvasElement w = true →
  ∃ w', step number_toString w (Fire id) = Some w'
        ∧ detections w' = S (detections w)
        ∧ timers w' !! id = Some (Interval (now w + 100)).
Proof.
  intros L D V C. unfold step. rewrite L.
  apply Nat.leb_le in D. rewrite D. eexists. split; [done|].
  fields w. split; [done|]. apply lookup_insert_eq.
Qed.

(** C2 (as amended): [toggleMode('file')] empties [selectedDescriptor],
    [toggleMode('camera')] leaves it as it was; both reset [faceValid];
    neither cancels a pending trigger: its timer stays in the map and
    [timerHandleCheckin] keeps its value, and when the timer fires with
    [loading] false the callback calls [handleCheckIn]. *)
Theorem toggleMode_keeps_trigger (events : list Event) (w : World) (mode : Mode) :
  run number_toString events init = Some w →
  selectedDescriptor (toggleMode file w) = Some []
  ∧ selectedDescriptor (toggleMode camera w) = selectedDescriptor w
  ∧ faceValid (toggleMode mode w) = false
  ∧ timerHandleCheckin (toggleMode mode w) = timerHandleCheckin w
  ∧ (∀ id due, timers w !! id = Some (Timeout due) →
               timers (toggleMode mode w) !! id = Some (Timeout due))
  ∧ (∀ (w1 : World) id due, timers w1 !! id = Some (Timeout due) → due ≤ now w1 →
                  loading w1 = false →
                  ∃ w2, step number_toString w1 (Fire id) = Some w2
                        ∧ calls w2 = S (calls w1)).
Proof.
  intros R. apply reachable_Inv in R. repeat apply conj.
  - destruct (videoElement w) eqn:?, (srcObject w) eqn:?,
      (detectionInterval w) as [[|i]|] eqn:?; by fields w.
  - destruct (videoElement w) eqn:?, (detectionInterval w) as [[|i]|] eqn:?; by fields w.
  - destruct mode, (videoElement w) eqn:?, (srcObject w) eqn:?,
      (detectionInterval w) as [[|i]|] eqn:?; by fields w.
  - change (c_handle (core (toggleMode mode w)) = c_handle (core w)).
    rewrite core_toggleMode. by destruct mode.
  - intros id due L.
    change (c_timers (core (toggleMode mode w)) !! id = Some (Timeout due)).
    rewrite core_toggleMode. destruct mode; cbn.
    + rewrite lookup_insert_ne; [by apply (cleared_timeout (core w))|].
      pose proof (timer_ids _ (idle_ids _ R) _ _ L) as B. cbn in B. lia.
    + by apply (cleared_timeout (core w)).
  - intros w1 id due L D F. unfold step. rewrite L.
    apply Nat.leb_le in D. rewrite D. eexists. split; [done|].
    change (c_calls (core (trigger number_toString (set_timers (delete id (timers w1)) w1)))
            = S (c_calls (core w1))).
    rewrite core_trigger. replace (loading _) with false by by destruct w1 as [[] []].
    rewrite core_set_timers. by repeat case_match.
Qed.

(** C4 (as amended): [stopFaceDetectionLoop] is idempotent, and it leaves
    the attempts in flight as they are: when one of them returns a
    detection after the stop, [faceValid] is set, [selectedDescriptor] is
    replaced, and the trigger is armed if [loading] is false and no trigger
    is pending. *)
Theorem stop_idempotent_results_still_applied (w : World) (d : Detection) :
  (∀ n, Nat.iter (S n) stopFaceDetectionLoop w = stopFaceDetectionLoop w)
  ∧ detections (stopFaceDetectionLoop w) = detections w
  ∧ faceValid (detectFace_settled (Returned (Some d)) (stopFaceDetectionLoop w)) = true
  ∧ selectedDescriptor (detectFace_settled (Returned (Some d)) (stopFaceDetectionLoop w))
    = Some (descriptor d)
  ∧ (loading w = false → handle_truthy (timerHandleCheckin w) = false →
     timerHandleCheckin (detectFace_settled (Returned (Some d)) (stopFaceDetectionLoop w))
     = Some (nextTimer w)
     ∧ timers (detectFace_settled (Returned (Some d)) (stopFaceDetectionLoop w))
       !! nextTimer w = Some (Timeout (now w + 3000))).
Proof.
  assert (stopFaceDetectionLoop (stopFaceDetectionLoop w) = stopFaceDetectionLoop w) as I
    by (destruct (detectionInterval w) as [[|i]|] eqn:?; by fields w).
  repeat apply conj.
  - induction n as [|n IH]; [done|]. cbn in *. by rewrite IH.
  - destruct (detectionInterval w) as [[|i]|] eqn:?; by fields w.
  - destruct (detectionInterval w) as [[|i]|] eqn:?, (loading w) eqn:?,
      (timerHandleCheckin w) as [[|j]|] eqn:?; by fields w.
  - destruct (detectionInterval w) as [[|i]|] eqn:?, (loading w) eqn:?,
      (timerHandleCheckin w) as [[|j]|] eqn:?; by fields w.
  - intros L F.
    destruct (detectionInterval w) as [[|i]|] eqn:?,
      (timerHandleCheckin w) as [[|j]|] eqn:?; fields w.
    all: split; [done|apply lookup_insert_eq].
Qed.

(** *** The auto-submit trigger *)

Lemma loading_set_timers tm (w : World) : loading (set_timers tm w) = loading w.
Proof. by destruct w as [[] []]. Qed.

Lemma loading_set_detections n (w : World) : loading (set_detections n w) = loading w.
Proof. by destruct w as [[] []]. Qed.

Lemma handle_set_detections n (w : World) :
  timerHandleCheckin (set_detections n w) = timerHandleCheckin w.
Proof. by destruct w as [[] []]. Qed.

(** Only a settled detection arms the trigger, and only with [loading]
    false and no handle kept. *)
Lemma step_arms (w : World) e w' :
  step number_toString w e = Some w' →
  arms w' = arms w
  ∨ (arms w' = S (arms w) ∧ loading w = false
     ∧ handle_truthy (timerHandleCheckin w) = false).
Proof.
  intros Hs. change (c_arms (core w') = c_arms (core w) ∨
                    (c_arms (core w') = S (c_arms (core w)) ∧ loading w = false
                     ∧ handle_truthy (timerHandleCheckin w) = false)).
  destruct (touches_timers e) eqn:T; [|left; by rewrite (core_frame _ _ _ _ T Hs)].
  destruct e; try discriminate T; clear T; unfold step in Hs.
  - destruct (timers w !! id) as [[due|due]|] eqn:L; [| |done];
      destruct (due <=? now w); simplify_eq; left.
    + by rewrite core_detectFace, core_set_timers.
    + rewrite core_trigger, core_set_timers. by repeat case_match.
  - unfold resume in Hs. destruct (detections w); simplify_eq.
    rewrite core_detectFace_settled, core_set_detections.
    destruct (arming _ _) eqn:A; [right|by left].
    split; [done|]. pose proof (arming_falsy _ _ A) as F.
    rewrite handle_set_detections in F. split; [|done].
    destruct r as [|[d|]]; try done. cbn in A. apply andb_prop in A as [A _].
    rewrite loading_set_detections in A. by apply negb_true_iff in A.
  - unfold resume in Hs. destruct (liveCheckIns w); simplify_eq. cbv beta.
    rewrite core_trigger_done, core_handleCheckIn_settled, core_set_liveCheckIns.
    left. by case_match.
  - simplify_eq. rewrite core_ngAfterViewInit. left. by case_match.
  - simplify_eq. rewrite core_toggleMode. left. by case_match.
Qed.

(** Only the trigger's callback calls [handleCheckIn], once, and only
    with [loading] false. *)
Lemma step_calls (w : World) e w' :
  step number_toString w e = Some w' →
  calls w' = calls w
  ∨ (calls w' = S (calls w) ∧ loading w = false
     ∧ ∃ id due, e = Fire id ∧ timers w !! id = Some (Timeout due)).
Proof.
  intros Hs. change (c_calls (core w') = c_calls (core w) ∨
                    (c_calls (core w') = S (c_calls (core w)) ∧ loading w = false
                     ∧ ∃ id due, e = Fire id ∧ timers w !! id = Some (Timeout due))).
  destruct (touches_timers e) eqn:T; [|left; by rewrite (core_frame _ _ _ _ T Hs)].
  destruct e; try discriminate T; clear T; unfold step in Hs.
  - destruct (timers w !! id) as [[due|due]|] eqn:L; [| |done];
      destruct (due <=? now w); simplify_eq.
    + left. by rewrite core_detectFace, core_set_timers.
    + rewrite core_trigger, core_set_timers, loading_set_timers.
      destruct (loading w); [by left|right].
      split; [by repeat case_match|]. split; [done|]. by exists id, due.
  - unfold resume in Hs. destruct (detections w); simplify_eq.
    rewrite core_detectFace_settled, core_set_detections. left. by case_match.
  - unfold resume in Hs. destruct (liveCheckIns w); simplify_eq. cbv beta.
    rewrite core_trigger_done, core_handleCheckIn_settled, core_set_liveCheckIns.
    left. by case_match.
  - simplify_eq. rewrite core_ngAfterViewInit. left. by case_match.
  - simplify_eq. rewrite core_toggleMode. left. by case_match.
Qed.

(** C3: in every world the component can reach, at most one auto-submit
    trigger is pending; [handleCheckIn] has been called at most once per
    arming; at most one live check-in is in flight; a step arms the
    trigger only with [loading] false and no trigger pending; and a step
    calls [handleCheckIn] only with [loading] false and no live check-in
    in flight. *)
Theorem auto_submit_discipline (events : list Event) (w : World) :
  run number_toString events init = Some w →
  (∀ i j di dj, timers w !! i = Some (Timeout di) →
                timers w !! j = Some (Timeout dj) → i = j)
  ∧ calls w ≤ arms w
  ∧ liveCheckIns w ≤ 1
  ∧ (∀ e w', step number_toString w e = Some w' → arms w < arms w' →
             arms w' = S (arms w) ∧ loading w = false
             ∧ ∀ id due, timers w !! id ≠ Some (Timeout due))
  ∧ (∀ e w', step number_toString w e = Some w' → calls w < calls w' →
             calls w' = S (calls w) ∧ loading w = false ∧ liveCheckIns w = 0).
Proof.
  intros R. apply reachable_Inv in R. destruct R as [I T L O].
  repeat apply conj.
  - intros i j di dj Li Lj.
    destruct (T _ _ Li) as [Hi _], (T _ _ Lj) as [Hj _]. congruence.
  - cbn in O. lia.
  - apply L.
  - intros e w' Hs A. destruct (step_arms _ _ _ Hs) as [E|(E & F & H)]; [lia|].
    repeat split; try done. intros id due Lid.
    destruct (T _ _ Lid) as [Hid _]. cbn in Hid.
    pose proof (handle_id _ I _ Hid) as B. rewrite Hid in H. cbn in H.
    destruct (id =? 0) eqn:Z; [|done]. apply Nat.eqb_eq in Z. lia.
  - intros e w' Hs C.
    destruct (step_calls _ _ _ Hs) as [E|(E & F & id & due & -> & Lid)]; [lia|].
    repeat split; try done. by destruct (T _ _ Lid).
Qed.

(** *** Check-in *)

(** C5: with [selectedDescriptor] null or empty, [handleFileCheckIn] shows
    the no-face message, sends nothing and suspends nowhere, and does not
    write [loading]. *)
Theorem file_checkin_without_descriptor (w : World) :
  selectedDescriptor w = None ∨ selectedDescriptor w = Some [] →
  checkInResult (handleFileCheckIn w) = Js.Str Msg.no_face_image
  ∧ trace (handleFileCheckIn w) = CallHandleFileCheckIn :: trace w
  ∧ count is_fetch (trace (handleFileCheckIn w)) = count is_fetch (trace w)
  ∧ fileCheckIns (handleFileCheckIn w) = fileCheckIns w
  ∧ loading (handleFileCheckIn w) = loading w.
Proof. intros [E|E]; by fields w. Qed.

(** What a successful response shows: the customer's name and the
    distance, rendered by the runtime. *)
Lemma success_message (res : Js.value) (w : World) :
  Js.truthy res = true → Js.truthy (Js.get "success" res) = true →
  checkInResult (setResultFromApiResponse number_toString res w)
  = Js.Str (Msg.checkin_ok
            +:+ Js.toString number_toString (Js.get_opt "name" (Js.get "customer" res))
            +:+ Msg.distance
            +:+ Js.toString number_toString (Js.get_opt "distance" (Js.get "customer" res))).
Proof.
  intros T1 T2. unfold setResultFromApiResponse. rewrite T1, T2.
  by destruct w as [[] []].
Qed.

Lemma loading_handleCheckIn_settled (r : Api.Settled) (w : World) :
  loading (handleCheckIn_settled number_toString r w) = false.
Proof.
  destruct r as [res|err]; unfold handleCheckIn_settled, setResultFromApiResponse.
  - destruct (Js.truthy res && _), (detectionInterval w) as [[|i]|] eqn:?,
      (nextTimer w) as [|n] eqn:?; by fields w.
  - destruct (Js.truthy (Api.body err) && _), (detectionInterval w) as [[|i]|] eqn:?;
      by fields w.
Qed.

Lemma result_handleCheckIn_rejected (err : Api.Error) (w : World) :
  checkInResult (handleCheckIn_settled number_toString (Api.Rejected err) w)
  = if Js.truthy (Api.body err) && Js.truthy (Js.get "message" (Api.body err))
    then Js.get "message" (Api.body err)
    else Js.Str Msg.api_error.
Proof.
  unfold handleCheckIn_settled.
  destruct (Js.truthy (Api.body err) && _), (detectionInterval w) as [[|i]|] eqn:?;
    by fields w.
Qed.

Lemma loading_handleFileCheckIn_settled (r : Api.Settled) (w : World) :
  loading (handleFileCheckIn_settled number_toString r w) = false.
Proof.
  destruct r as [res|err]; unfold handleFileCheckIn_settled, setResultFromApiResponse;
    [destruct (Js.truthy res && _)|]; by fields w.
Qed.

Lemma result_handleFileCheckIn_rejected (err : Api.Error) (w : World) :
  checkInResult (handleFileCheckIn_settled number_toString (Api.Rejected err) w)
  = Js.Str Msg.api_error.
Proof. by fields w. Qed.

(** [handleCheckIn] past its guards, with a descriptor: it suspends at the
    request, with [loading] set. *)
Lemma handleCheckIn_sends (w : World) (d : Api.Descriptor) :
  submits w = true → selectedDescriptor w = Some d →
  ∃ w1, handleCheckIn number_toString w = (w1, true)
        ∧ loading w1 = true
        ∧ liveCheckIns w1 = S (liveCheckIns w)
        ∧ trace w1 = Fetch (Api.checkInWithDescriptor d) :: CallHandleCheckIn :: trace w.
Proof.
  intros Su D. destruct (videoElement w) eqn:?, (canvasElement w) eqn:?,
    (faceValid w) eqn:?, (detectionInterval w) as [[|i]|] eqn:?; fields w; eauto.
Qed.

(** What [handleCheckIn] has done when it suspends at the request. *)
Lemma handleCheckIn_suspended (w w1 : World) :
  handleCheckIn number_toString w = (w1, true) →
  submits w = true ∧ loading w1 = true
  ∧ liveCheckIns w1 = S (liveCheckIns w)
  ∧ ∃ d, selectedDescriptor w = Some d
         ∧ trace w1 = Fetch (Api.checkInWithDescriptor d) :: CallHandleCheckIn :: trace w.
Proof.
  intros E. destruct (videoElement w) eqn:?, (canvasElement w) eqn:?,
    (faceValid w) eqn:?, (selectedDescriptor w) eqn:?,
    (detectionInterval w) as [[|i]|] eqn:?; fields w; eauto 10.
Qed.

Lemma postForm_rejection (body : Js.value) :
  Api.postForm (json_response 400 body) = Api.Rejected (Api.HttpJsonError 400 body).
Proof. reflexivity. Qed.

(** On the live path a rejection with a JSON body shows the body's
    message. *)
Lemma live_checkin_shows_server_message (w : World) :
  checkInResult (handleCheckIn_settled number_toString
                   (Api.postForm (json_response 400 not_recognized)) w)
  = Js.Str "face not recognized".
Proof. by rewrite postForm_rejection, result_handleCheckIn_rejected. Qed.

(** C6, on the file path: when the backend answers HTTP 400 with the JSON
    body [{message: "face not recognized"}], [handleFileCheckIn] shows the
    generic connection error, not the server's message. *)
Theorem file_checkin_hides_server_message (w : World) :
  checkInResult (handleFileCheckIn_settled number_toString
                   (Api.postForm (json_response 400 not_recognized)) w)
  = Js.Str Msg.api_error.
Proof. by rewrite postForm_rejection, result_handleFileCheckIn_rejected. Qed.

(** C7: on both check-in paths [loading] is true when the request is
    sent and false once the call has settled, whatever [fetch] delivered;
    a network failure leaves the generic connection error. *)
Theorem loading_set_and_cleared (w : World) (o : Api.FetchOutcome) :
  (∀ d, submits w = true → selectedDescriptor w = Some d →
        ∃ w1, handleCheckIn number_toString w = (w1, true)
              ∧ loading w1 = true
              ∧ trace w1 = Fetch (Api.checkInWithDescriptor d)
                           :: CallHandleCheckIn :: trace w)
  ∧ (∀ w1, handleCheckIn number_toString w = (w1, true) → loading w1 = true)
  ∧ (∀ d, selectedDescriptor w = Some d → d ≠ [] →
          loading (handleFileCheckIn w) = true
          ∧ trace (handleFileCheckIn w)
            = Fetch (Api.checkInWithDescriptor d) :: CallHandleFileCheckIn :: trace w)
  ∧ loading (handleCheckIn_settled number_toString (Api.postForm o) w) = false
  ∧ loading (handleFileCheckIn_settled number_toString (Api.postForm o) w) = false
  ∧ (∀ w1, handleCheckIn number_toString w = (w1, false) → submits w = true →
           loading w1 = false)
  ∧ checkInResult (handleCheckIn_settled number_toString
                     (Api.postForm Api.NetworkFailure) w) = Js.Str Msg.api_error
  ∧ checkInResult (handleFileCheckIn_settled number_toString
                     (Api.postForm Api.NetworkFailure) w) = Js.Str Msg.api_error.
Proof.
  repeat apply conj.
  - intros d Su D. destruct (handleCheckIn_sends _ _ Su D) as (w1 & E & L & _ & T).
    eauto.
  - intros w1 E. by destruct (handleCheckIn_suspended _ _ E) as (_ & L & _).
  - intros [|x d] E N; [done|]. by fields w.
  - apply loading_handleCheckIn_settled.
  - apply loading_handleFileCheckIn_settled.
  - intros w1 E Su. destruct (videoElement w) eqn:?, (canvasElement w) eqn:?,
      (faceValid w) eqn:?, (selectedDescriptor w) eqn:?,
      (detectionInterval w) as [[|i]|] eqn:?; by fields w.
  - change (Api.postForm Api.NetworkFailure) with (Api.Rejected Api.TypeError).
    by rewrite result_handleCheckIn_rejected.
  - change (Api.postForm Api.NetworkFailure) with (Api.Rejected Api.TypeError).
    by rewrite result_handleFileCheckIn_rejected.
Qed.

(** *** Registration *)

(** C8: a submission whose trimmed name or trimmed code is empty, or that
    has no image, fails with a validation message, sends nothing, and
    keeps the name, the code and the file; a submission that the backend
    reports as successful empties the three. *)
Theorem registration_validates_then_clears (w : World) :
  (JsString.trim (registrationName w) = ""
   ∨ JsString.trim (registrationCode w) = ""
   ∨ registrationFile w = None →
   registrationStatus (handleRegistrationSubmit w) = error
   ∧ (registrationResult (handleRegistrationSubmit w) = Js.Str Msg.need_name_code
      ∨ registrationResult (handleRegistrationSubmit w) = Js.Str Msg.need_image)
   ∧ trace (handleRegistrationSubmit w) = trace w
   ∧ registrations (handleRegistrationSubmit w) = registrations w
   ∧ registrationName (handleRegistrationSubmit w) = registrationName w
   ∧ registrationCode (handleRegistrationSubmit w) = registrationCode w
   ∧ registrationFile (handleRegistrationSubmit w) = registrationFile w)
  ∧ (∀ res ok, Js.get_strict "success" res = Some ok → Js.truthy ok = true →
       registrationStatus (handleRegistrationSubmit_settled (Api.Fulfilled res) w) = success
       ∧ registrationName (handleRegistrationSubmit_settled (Api.Fulfilled res) w) = ""
       ∧ registrationCode (handleRegistrationSubmit_settled (Api.Fulfilled res) w) = ""
       ∧ registrationFile (handleRegistrationSubmit_settled (Api.Fulfilled res) w) = None).
Proof.
  split.
  - intros H. unfold handleRegistrationSubmit.
    destruct (JsString.is_empty (JsString.trim (registrationName w))
              || JsString.is_empty (JsString.trim (registrationCode w))) eqn:E,
      (registrationFile w) eqn:F.
    + fields w. eauto 10.
    + fields w. eauto 10.
    + apply orb_false_elim in E as [E1 E2].
      destruct H as [H|[H|H]]; [by rewrite H in E1|by rewrite H in E2|done].
    + fields w. eauto 10.
  - intros res ok G T. unfold handleRegistrationSubmit_settled. rewrite G, T.
    by fields w.
Qed.

(** *** The loop around a live check-in *)

(** The step that sends a live check-in is the trigger's callback. *)
Lemma live_checkin_sent (w : World) e w1 :
  step number_toString w e = Some w1 → liveCheckIns w < liveCheckIns w1 →
  ∃ id due, timers w !! id = Some (Timeout due)
            ∧ w1 = trigger number_toString (set_timers (delete id (timers w)) w).
Proof.
  intros Hs Lt. change (c_live (core w) < c_live (core w1)) in Lt.
  destruct (touches_timers e) eqn:T;
    [|rewrite (core_frame _ _ _ _ T Hs) in Lt; lia].
  destruct e; try discriminate T; clear T; unfold step in Hs.
  - destruct (timers w !! id) as [[due|due]|] eqn:L; [| |done];
      destruct (due <=? now w); simplify_eq; [|by eauto].
    rewrite core_detectFace, core_set_timers in Lt. cbn in Lt. lia.
  - unfold resume in Hs. destruct (detections w); simplify_eq.
    rewrite core_detectFace_settled, core_set_detections in Lt.
    destruct (arming _ _); cbn in Lt; lia.
  - unfold resume in Hs. destruct (liveCheckIns w) eqn:E; simplify_eq.
    cbv beta in Lt.
    rewrite core_trigger_done, core_handleCheckIn_settled,
      core_set_liveCheckIns in Lt.
    destruct (Api.postForm o); cbn in Lt; lia.
  - simplify_eq. rewrite core_ngAfterViewInit in Lt.
    destruct (currentMode w); cbn in Lt; lia.
  - simplify_eq. rewrite core_toggleMode in Lt. destruct mode; cbn in Lt; lia.
Qed.

Lemma trigger_sends (v : World) (d : Api.Descriptor) :
  loading v = false → submits v = true → selectedDescriptor v = Some d →
  trace (trigger number_toString v)
  = Fetch (Api.checkInWithDescriptor d) :: CallHandleCheckIn :: trace v.
Proof.
  intros L Su D. destruct (videoElement v) eqn:?, (canvasElement v) eqn:?,
    (faceValid v) eqn:?, (detectionInterval v) as [[|i]|] eqn:?; by fields v.
Qed.

Lemma view_set_timers tm (w : World) :
  loading (set_timers tm w) = loading w
  ∧ submits (set_timers tm w) = submits w
  ∧ selectedDescriptor (set_timers tm w) = selectedDescriptor w
  ∧ liveCheckIns (set_timers tm w) = liveCheckIns w
  ∧ trace (set_timers tm w) = trace w.
Proof. by destruct w as [[] []]. Qed.

(** C9: in every world the component can reach, the trigger's callback
    that gets past the guards of [handleCheckIn] sends a live check-in;
    a step that sends one has stopped the detection loop first - no
    interval is left among the timers; and the step in which the
    check-in settles starts the loop again, whatever [fetch] delivered,
    with [loading] false and no trigger handle kept, so that the next
    positive detection arms the trigger again. *)
Theorem live_checkin_stops_and_restarts_loop (events : list Event) (w : World) :
  run number_toString events init = Some w →
  (∀ id due d, timers w !! id = Some (Timeout due) → due ≤ now w →
               loading w = false → submits w = true → selectedDescriptor w = Some d →
               ∃ w1, step number_toString w (Fire id) = Some w1
                     ∧ liveCheckIns w1 = S (liveCheckIns w))
  ∧ (∀ e w1, step number_toString w e = Some w1 → liveCheckIns w < liveCheckIns w1 →
             detectionInterval w1 = None
             ∧ (∀ id due, timers w1 !! id ≠ Some (Interval due))
             ∧ ∃ d, trace w1 = Fetch (Api.checkInWithDescriptor d)
                               :: CallHandleCheckIn :: trace w)
  ∧ (∀ o, 0 < liveCheckIns w →
          ∃ w2, step number_toString w (CheckInDone o) = Some w2
                ∧ loading w2 = false
                ∧ timerHandleCheckin w2 = None
                ∧ (∃ id, detectionInterval w2 = Some id
                         ∧ timers w2 !! id = Some (Interval (now w + 100)))
                ∧ ∀ d, arming (Returned (Some d)) w2 = true).
Proof.
  intros R. apply reachable_Inv in R. repeat apply conj.
  - intros id due d L D Lo Su De. unfold step. rewrite L.
    apply Nat.leb_le in D. rewrite D. eexists. split; [done|].
    destruct (view_set_timers (delete id (timers w)) w) as (E1 & E2 & E3 & E4 & _).
    change (c_live (core (trigger number_toString (set_timers (delete id (timers w)) w)))
            = S (liveCheckIns w)).
    rewrite core_trigger, E1, E2, E3, Lo, Su, De, <- E4. reflexivity.
  - intros e w1 Hs Lt.
    destruct (live_checkin_sent _ _ _ Hs Lt) as (id & due & Lid & ->). clear Hs.
    assert (Firing 1 (core (set_timers (delete id (timers w)) w))) as F
      by (rewrite core_set_timers; by apply (Firing_expire _ due)).
    destruct (view_set_timers (delete id (timers w)) w) as (_ & _ & _ & El & Et).
    remember (set_timers (delete id (timers w)) w) as v eqn:Ev.
    rewrite <- Et, <- El in *. clear Ev El Et R Lid w.
    assert (Ids (c_call (core v))) as I by by destruct F as [[] _ _ _ _].
    destruct (loading v) eqn:Lo, (submits v) eqn:Su, (selectedDescriptor v) as [d|] eqn:De.
    all: change (c_live (core v) < c_live (core (trigger number_toString v))) in Lt.
    all: rewrite core_trigger, Lo, ?Su, ?De in Lt; cbn in Lt; try lia.
    change (c_interval (core (trigger number_toString v)) = None
            ∧ (∀ i d, c_timers (core (trigger number_toString v)) !! i ≠ Some (Interval d))
            ∧ ∃ d, trace (trigger number_toString v)
                   = Fetch (Api.checkInWithDescriptor d) :: CallHandleCheckIn :: trace v).
    rewrite core_trigger, Lo, Su, De. cbn [negb]. cbv zeta.
    split; [by apply stopped_interval|]. split.
    + intros i d'. by apply cleared_interval.
    + exists d. by apply trigger_sends.
  - intros o Lt. unfold step, resume.
    destruct (liveCheckIns w) as [|n]; [lia|]. eexists. split; [done|].
    assert (loading (trigger_done (handleCheckIn_settled number_toString (Api.postForm o)
                                     (set_liveCheckIns n w))) = false) as Lo.
    { rewrite <- (loading_handleCheckIn_settled (Api.postForm o) (set_liveCheckIns n w)).
      by destruct (handleCheckIn_settled _ _ _) as [[] []]. }
    assert (timerHandleCheckin
              (trigger_done (handleCheckIn_settled number_toString (Api.postForm o)
                               (set_liveCheckIns n w))) = None) as Ha
      by by destruct (handleCheckIn_settled _ _ _) as [[] []].
    repeat apply conj; try done.
    + change (∃ id, c_interval (core (trigger_done
                (handleCheckIn_settled number_toString (Api.postForm o)
                   (set_liveCheckIns n w)))) = Some id
              ∧ c_timers (core (trigger_done
                  (handleCheckIn_settled number_toString (Api.postForm o)
                     (set_liveCheckIns n w)))) !! id = Some (Interval (now w + 100))).
      rewrite core_trigger_done, core_handleCheckIn_settled.
      replace (now (set_liveCheckIns n w)) with (now w) by by destruct w as [[] []].
      destruct (Api.postForm o); cbn; eexists; (split; [done|apply lookup_insert_eq]).
    + intros d. unfold arming. by rewrite Lo, Ha.
Qed.

(** *** Still images *)

(** C10: when the detection on a selected image returns a face, the same
    step stores its descriptor and calls [handleFileCheckIn], which sends
    that descriptor to the backend (the engine's descriptors are never
    empty); no timer is armed and no time passes. *)
Theorem file_detection_submits_at_once (w : World) (d : Detection) :
  0 < fileDetections w →
  ∃ w', step number_toString w (FileDetectionDone (Returned (Some d))) = Some w'
        ∧ faceValid w' = true
        ∧ selectedDescriptor w' = Some (descriptor d)
        ∧ (timers w' = timers w ∧ timerHandleCheckin w' = timerHandleCheckin w
           ∧ now w' = now w)
        ∧ (descriptor d ≠ [] →
           trace w' = Fetch (Api.checkInWithDescriptor (descriptor d))
                      :: CallHandleFileCheckIn :: trace w
           ∧ loading w' = true
           ∧ fileCheckIns w' = S (fileCheckIns w)).
Proof.
  intros Lt. unfold step, resume.
  destruct (fileDetections w) eqn:?; [lia|]. eexists. split; [done|].
  destruct d as [[|x d]]; by fields w.
Qed.

End Properties.

(** ** The flags are kept *)

Section Flags.

Variable number_toString : float → string.

Lemma Flags_init : Flags init.
Proof. split; cbn; try done; by eexists. Qed.

Lemma step_Flags (w : World) e w' :
  Flags w → step number_toString w e = Some w' → Flags w'.
Proof.
  intros [F1 [d F2] F3 F4 F5 F6] Hs. destruct e; unfold step, resume in Hs.
  - fields w; flags.
  - destruct (timers w !! id) as [[due|due]|] eqn:?; [| |done];
      destruct (due <=? now w) eqn:?; simplify_eq.
    + destruct (videoElement w) eqn:?, (canvasElement w) eqn:?; fields w; flags.
    + destruct (loading w) eqn:?, (videoElement w) eqn:?, (canvasElement w) eqn:?,
        (faceValid w) eqn:?, (detectionInterval w) as [[|i]|] eqn:?; fields w; flags.
  - destruct (detections w) eqn:?, r as [|[x|]], (loading w) eqn:?,
      (timerHandleCheckin w) as [[|i]|] eqn:?; fields w; flags.
  - destruct (liveCheckIns w) eqn:?; [by fields w|].
    unfold handleCheckIn_settled, setResultFromApiResponse in Hs.
    destruct (Api.postForm o) as [res|err].
    + destruct (Js.truthy res && _), (detectionInterval w) as [[|i]|] eqn:?,
        (nextTimer w) as [|m] eqn:?; fields w; flags.
    + destruct (Js.truthy (Api.body err) && _), (detectionInterval w) as [[|i]|] eqn:?;
        fields w; flags.
  - destruct (fileCheckIns w) eqn:?; [by fields w|].
    unfold handleFileCheckIn_settled, setResultFromApiResponse in Hs.
    destruct (Api.postForm o) as [res|err]; [destruct (Js.truthy res && _)|];
      fields w; flags.
  - destruct (registrations w) eqn:?; [by fields w|].
    unfold handleRegistrationSubmit_settled in Hs.
    destruct (Api.postForm o) as [res|err];
      [destruct (Js.get_strict _ res) as [ok|]; [destruct (Js.truthy ok)|]|];
      fields w; flags.
  - destruct (fileReads w) eqn:?, decoded, (fileCanvasElement w) eqn:?; fields w; flags.
  - unfold processSelectedFile_detected in Hs.
    destruct (fileDetections w) eqn:?, r as [|[[[|x y]]|]];
      cbn [descriptor] in Hs; fields w; flags.
  - destruct (modelLoads w) eqn:?, loaded; fields w; flags.
  - destruct (cameraRequests w) eqn:?, granted, (videoElement w) eqn:?; fields w; flags.
  - fields w; flags.
  - destruct (currentMode w) eqn:?, (detectionInterval w) as [[|i]|] eqn:?;
      fields w; flags.
  - destruct present, (currentMode w) eqn:?; fields w; flags.
  - fields w; flags.
  - fields w; flags.
  - destruct mode, (videoElement w) eqn:?, (srcObject w) eqn:?,
      (detectionInterval w) as [[|i]|] eqn:?; fields w; flags.
  - destruct files, (selectedFile w) eqn:?; fields w; flags.
  - fields w; flags.
  - fields w; flags.
  - destruct files; fields w; flags.
  - fields w; flags.
  - fields w; flags.
  - fields w; flags.
  - fields w; flags.
  - unfold handleRegistrationSubmit in Hs.
    destruct (JsString.is_empty _ || _) eqn:E;
      [destruct (registrationFile w) eqn:?; fields w; flags|].
    destruct (registrationFile w) as [f|] eqn:?; [|fields w; flags].
    apply orb_false_elim in E as [E1 E2].
    assert (known (Fetch (Api.registerCustomer (JsString.trim (registrationName w))
                            (JsString.trim (registrationCode w)) f))) as K.
    { right. do 3 eexists. split; [done|].
      split; intros E; by rewrite E in *. }
    fields w; flags. apply Forall_cons. by split.
Qed.

Lemma run_Flags events (w : World) w' :
  Flags w → run number_toString events w = Some w' → Flags w'.
Proof.
  revert w. induction events as [|e events IH]; intros w F R; cbn in R.
  - by simplify_eq.
  - destruct (step number_toString w e) as [w1|] eqn:Hs; [|done].
    eauto using step_Flags.
Qed.

Lemma reachable_Flags events (w : World) :
  run number_toString events init = Some w → Flags w.
Proof. apply run_Flags, Flags_init. Qed.

End Flags.

(** ** More of the component, and the services it calls *)

Section More.

Variable number_toString : float → string.

(** *** The HTTP layer *)

(** X1: [postForm] fulfils exactly when the response is ok and, if it
    declares JSON, its body parses; it then delivers the parsed body, or
    [{success: true}] for a response that does not declare JSON.  A body
    that declares JSON and does not parse rejects with the parser's
    error, whatever the status. *)
Theorem postForm_fulfils (o : Api.FetchOutcome) (res : Js.value) :
  (Api.postForm o = Api.Fulfilled res ↔
   ∃ r, o = Api.Responded r ∧ Api.ok r = true
        ∧ if JsString.includes "application/json" (default "" (Api.content_type r))
          then Api.json r = Some res
          else res = Js.Obj [("success", Js.Bool true)])
  ∧ (∀ r, o = Api.Responded r →
          JsString.includes "application/json" (default "" (Api.content_type r)) = true →
          Api.json r = None →
          Api.postForm o = Api.Rejected Api.SyntaxError).
Proof.
  split; [split|].
  - destruct o as [|r]; [done|]. unfold Api.postForm. cbv zeta.
    destruct (JsString.includes _ _) eqn:I, (Api.json r) as [j|] eqn:J,
      (Api.ok r) eqn:O; intros E; simplify_eq; exists r; rewrite I; by rewrite ?J.
  - intros (r & -> & O & H). unfold Api.postForm. cbv zeta.
    destruct (JsString.includes _ _); [rewrite H|]; rewrite O; by simplify_eq.
  - intros r -> I J. unfold Api.postForm. cbv zeta. by rewrite I, J.
Qed.

Lemma result_handleFileCheckIn_fulfilled (res : Js.value) (w : World) :
  checkInResult (handleFileCheckIn_settled number_toString (Api.Fulfilled res) w)
  = checkInResult (setResultFromApiResponse number_toString res w).
Proof.
  unfold handleFileCheckIn_settled, setResultFromApiResponse.
  destruct (Js.truthy res && _); by fields w.
Qed.

Lemma result_handleCheckIn_fulfilled (res : Js.value) (w : World) :
  checkInResult (handleCheckIn_settled number_toString (Api.Fulfilled res) w)
  = checkInResult (setResultFromApiResponse number_toString res w).
Proof.
  unfold handleCheckIn_settled, setResultFromApiResponse.
  destruct (Js.truthy res && _), (detectionInterval w) as [[|i]|] eqn:?,
    (nextTimer w) as [|n] eqn:?; by fields w.
Qed.

(** X2: an ok response that does not declare JSON counts as a success on
    every path: both check-in paths show the success message with
    [undefined] for the name and for the distance, and the registration
    form reports success and is emptied. *)
Theorem success_without_json (w : World) (r : Api.Response) :
  JsString.includes "application/json" (default "" (Api.content_type r)) = false →
  Api.ok r = true →
  checkInResult (handleCheckIn_settled number_toString (Api.postForm (Api.Responded r)) w)
  = Js.Str (Msg.checkin_ok +:+ "undefined" +:+ Msg.distance +:+ "undefined")
  ∧ checkInResult (handleFileCheckIn_settled number_toString
                     (Api.postForm (Api.Responded r)) w)
    = Js.Str (Msg.checkin_ok +:+ "undefined" +:+ Msg.distance +:+ "undefined")
  ∧ registrationStatus (handleRegistrationSubmit_settled (Api.postForm (Api.Responded r)) w)
    = success
  ∧ registrationResult (handleRegistrationSubmit_settled (Api.postForm (Api.Responded r)) w)
    = Js.Str Msg.register_ok
  ∧ registrationName (handleRegistrationSubmit_settled (Api.postForm (Api.Responded r)) w)
    = "".
Proof.
  intros I O.
  assert (Api.postForm (Api.Responded r)
          = Api.Fulfilled (Js.Obj [("success", Js.Bool true)])) as ->
    by (unfold Api.postForm; cbv zeta; by rewrite I, O).
  repeat apply conj.
  - rewrite result_handleCheckIn_fulfilled. by fields w.
  - rewrite result_handleFileCheckIn_fulfilled. by fields w.
  - by fields w.
  - by fields w.
  - by fields w.
Qed.

(** X3: what the live path shows for a response that is not ok: the
    [message] of its JSON body when the body and the message are truthy,
    and the generic connection error otherwise (no JSON declared, a body
    that does not parse, no message, an empty message); the file path
    shows the generic error in each of these cases. *)
Theorem live_rejection_message (w : World) (r : Api.Response) :
  Api.ok r = false →
  checkInResult (handleCheckIn_settled number_toString (Api.postForm (Api.Responded r)) w)
  = rejection_shown r
  ∧ checkInResult (handleFileCheckIn_settled number_toString
                     (Api.postForm (Api.Responded r)) w)
    = Js.Str Msg.api_error.
Proof.
  intros O. unfold rejection_shown, Api.postForm. cbv zeta. rewrite O.
  destruct (JsString.includes _ _); [destruct (Api.json r) as [j|]|];
    rewrite result_handleCheckIn_rejected, result_handleFileCheckIn_rejected; done.
Qed.

(** *** What holds in every reachable world *)

(** X4: in every world the component can reach, the only interval timer
    is the one [detectionInterval] names: at most one detection loop
    runs, and [stopFaceDetectionLoop] leaves none. *)
Theorem one_detection_loop (events : list Event) (w : World) :
  run number_toString events init = Some w →
  (∀ id due, timers w !! id = Some (Interval due) → detectionInterval w = Some id)
  ∧ (∀ i j di dj, timers w !! i = Some (Interval di) →
                  timers w !! j = Some (Interval dj) → i = j)
  ∧ (∀ id due, timers (stopFaceDetectionLoop w) !! id ≠ Some (Interval due)).
Proof.
  intros R. apply reachable_Inv in R. destruct R as [I _ _ _].
  pose proof (one_loop _ I) as L. cbn in L. repeat apply conj.
  - done.
  - intros i j di dj Hi Hj. apply L in Hi, Hj. congruence.
  - intros id due H.
    change (c_timers (core (stopFaceDetectionLoop w)) !! id = Some (Interval due)) in H.
    rewrite core_stopFaceDetectionLoop in H.
    pose proof (one_loop _ (Ids_stop _ I) _ _ H) as E.
    by rewrite (stopped_interval _ I) in E.
Qed.

(** X5: in every reachable world a busy flag is set only while the work
    it stands for is in flight: [loading] while a check-in request is,
    [loaddingModels] while the models are loading or a still image is
    being read or searched.  So neither flag stays set once every call
    has settled. *)
Theorem busy_flags_mean_in_flight (events : list Event) (w : World) :
  run number_toString events init = Some w →
  (loading w = true → 0 < liveCheckIns w + fileCheckIns w)
  ∧ (loaddingModels w = true → 0 < modelLoads w + fileReads w + fileDetections w).
Proof. intros R. by destruct (reachable_Flags _ _ _ R). Qed.

(** X6: in every reachable world [selectedDescriptor] holds an array,
    never [null]; so a call of [handleCheckIn] that gets past its two
    guards sends a request, and the branch of [checkInWithDescriptor]
    that throws on a missing descriptor is never taken. *)
Theorem descriptor_never_null (events : list Event) (w : World) :
  run number_toString events init = Some w →
  ∃ d, selectedDescriptor w = Some d
       ∧ (submits w = true →
          ∃ w1, handleCheckIn number_toString w = (w1, true)
                ∧ trace w1 = Fetch (Api.checkInWithDescriptor d)
                             :: CallHandleCheckIn :: trace w).
Proof.
  intros R. destruct (reachable_Flags _ _ _ R) as [_ [d D] _ _ _ _].
  exists d. split; [done|]. intros Su.
  destruct (handleCheckIn_sends number_toString _ _ Su D) as (w1 & E & _ & _ & T). eauto.
Qed.

(** X7: in every reachable world the registration form is disabled
    exactly while [registrationLoading] is set, and that only while a
    registration request is in flight. *)
Theorem registration_flags (events : list Event) (w : World) :
  run number_toString events init = Some w →
  isRegistrationDisabled w = registrationLoading w
  ∧ (registrationLoading w = true → 0 < registrations w).
Proof. intros R. by destruct (reachable_Flags _ _ _ R). Qed.

(** X8: every request the component has sent in a reachable world is
    a check-in by descriptor or a registration with a name and a code
    that are not empty; it went to [/checkin/detection] or to
    [/register].  The methods of the service that upload an image for a
    check-in, or a descriptor for a registration, are never called. *)
Theorem only_known_requests (events : list Event) (w : World) (r : Api.Request) :
  run number_toString events init = Some w →
  Fetch r ∈ trace w →
  ((∃ d, r = Api.checkInWithDescriptor d)
   ∨ (∃ name code f, r = Api.registerCustomer name code f ∧ name ≠ "" ∧ code ≠ ""))
  ∧ (Api.url r = "http://localhost:3000/checkin/detection"
     ∨ Api.url r = "http://localhost:3000/register").
Proof.
  intros R H. destruct (reachable_Flags _ _ _ R) as [_ _ _ _ _ K].
  rewrite Forall_forall in K. specialize (K _ H). cbn in K.
  split; [done|].
  destruct K as [[d ->]|(name & code & f & -> & _)]; [by left|by right].
Qed.

(** *** Detection results and the trigger *)

(** X9: a detection that finds no face clears [faceValid] and
    [faceDetecting] and leaves the descriptor, the timers, the trigger's
    handle and the trace as they were: a pending trigger is not
    cancelled and the last descriptor is kept.  A detection that rejects
    writes nothing at all: [faceDetecting] is not cleared. *)
Theorem detection_without_face (w : World) :
  0 < detections w →
  (∃ w', step number_toString w (DetectionDone (Returned None)) = Some w'
         ∧ faceValid w' = false ∧ faceDetecting w' = false
         ∧ selectedDescriptor w' = selectedDescriptor w
         ∧ timers w' = timers w
         ∧ timerHandleCheckin w' = timerHandleCheckin w
         ∧ trace w' = trace w)
  ∧ (∃ w', step number_toString w (DetectionDone Threw) = Some w'
           ∧ faceValid w' = faceValid w ∧ faceDetecting w' = faceDetecting w
           ∧ selectedDescriptor w' = selectedDescriptor w
           ∧ timers w' = timers w
           ∧ timerHandleCheckin w' = timerHandleCheckin w
           ∧ trace w' = trace w).
Proof.
  intros Lt. unfold step, resume.
  destruct (detections w) eqn:?; [lia|].
  split; eexists; (split; [done|]); by fields w.
Qed.

(** X10: when the trigger fires with [loading] false and one of the guards
    of [handleCheckIn] fails (no face at that moment, or the video or the
    canvas element missing), [handleCheckIn] is called and shows the
    guard's message; nothing is sent, [loading] stays false, the detection
    loop is left as it is, and the trigger's handle is cleared, so that
    the next detection of a face can arm it again. *)
Theorem trigger_stopped_by_guards (w : World) (id due : nat) :
  timers w !! id = Some (Timeout due) → due ≤ now w →
  loading w = false → submits w = false →
  ∃ w', step number_toString w (Fire id) = Some w'
        ∧ checkInResult w' = Js.Str (guard_message w)
        ∧ trace w' = CallHandleCheckIn :: trace w
        ∧ timerHandleCheckin w' = None
        ∧ timers w' = delete id (timers w)
        ∧ loading w' = false
        ∧ liveCheckIns w' = liveCheckIns w
        ∧ detectionInterval w' = detectionInterval w.
Proof.
  intros L D Lo Su. unfold step. rewrite L.
  apply Nat.leb_le in D. rewrite D. eexists. split; [done|].
  unfold guard_message.
  destruct (videoElement w) eqn:?, (canvasElement w) eqn:?, (faceValid w) eqn:?;
    by fields w.
Qed.

(** X11: in a reachable world the trigger can find [loading] set only
    because a check-in of a still image is in flight; its callback then
    does not call [handleCheckIn] and does not wait: it clears the
    trigger's handle and leaves the message and the trace as they were. *)
Theorem trigger_dropped_while_loading (events : list Event) (w : World) (id due : nat) :
  run number_toString events init = Some w →
  timers w !! id = Some (Timeout due) → due ≤ now w → loading w = true →
  0 < fileCheckIns w
  ∧ ∃ w', step number_toString w (Fire id) = Some w'
          ∧ trace w' = trace w
          ∧ checkInResult w' = checkInResult w
          ∧ timerHandleCheckin w' = None
          ∧ liveCheckIns w' = 0
          ∧ loading w' = true.
Proof.
  intros R L D Lo. pose proof (reachable_Inv _ _ _ R) as [_ T _ _].
  destruct (reachable_Flags _ _ _ R) as [F _ _ _ _ _].
  destruct (T _ _ L) as [_ Li]. cbn in Li. specialize (F Lo).
  split; [lia|]. unfold step. rewrite L.
  apply Nat.leb_le in D. rewrite D. eexists. split; [done|].
  by fields w.
Qed.

(** *** Still images *)

(** X12: however the processing of a selected image ends (the file
    cannot be read or decoded, the file canvas is missing, the detection
    rejects, finds no face or finds one), [faceDetecting] and
    [loaddingModels] are cleared; when it ends before the detection,
    no detection is started and no message replaces the empty one. *)
Theorem file_processing_clears_flags (w : World) (r : Engine) (decoded : bool) :
  (0 < fileDetections w →
   ∃ w', step number_toString w (FileDetectionDone r) = Some w'
         ∧ faceDetecting w' = false ∧ loaddingModels w' = false)
  ∧ (0 < fileReads w → decoded && fileCanvasElement w = false →
     ∃ w', step number_toString w (FileDecoded decoded) = Some w'
           ∧ faceDetecting w' = false ∧ loaddingModels w' = false
           ∧ fileDetections w' = fileDetections w
           ∧ checkInResult w' = checkInResult w
           ∧ faceValid w' = faceValid w
           ∧ trace w' = trace w).
Proof.
  split; intros Lt; unfold step, resume.
  - destruct (fileDetections w) eqn:?; [lia|]. eexists. split; [done|].
    unfold processSelectedFile_detected.
    destruct r as [|[[[|x y]]|]]; cbn [descriptor]; by fields w.
  - intros G. destruct (fileReads w) eqn:?; [lia|]. eexists. split; [done|].
    destruct decoded, (fileCanvasElement w) eqn:?; by fields w.
Qed.

(** X13: a detection on a still image that rejects or finds no face sends
    nothing and shows nothing: the trace, [loading], the descriptor and
    the message stay as they were (the no-face message of
    [handleFileCheckIn] is not shown, since [handleFileCheckIn] is not
    called); only [faceValid] is cleared when no face was found. *)
Theorem file_without_face_is_silent (w : World) (r : Engine) :
  0 < fileDetections w → r = Threw ∨ r = Returned None →
  ∃ w', step number_toString w (FileDetectionDone r) = Some w'
        ∧ trace w' = trace w
        ∧ loading w' = loading w
        ∧ fileCheckIns w' = fileCheckIns w
        ∧ selectedDescriptor w' = selectedDescriptor w
        ∧ checkInResult w' = checkInResult w
        ∧ faceValid w' = match r with Threw => faceValid w | Returned _ => false end.
Proof.
  intros Lt H. unfold step, resume.
  destruct (fileDetections w) eqn:?; [lia|]. eexists. split; [done|].
  destruct H as [-> | ->]; by fields w.
Qed.

(** X14: withdrawing the selected file, or switching the mode, does not
    cancel a detection that is in flight on a still image: when it
    returns a face afterwards, the descriptor is stored and the check-in
    request is sent all the same. *)
Theorem withdrawn_file_still_submitted (w : World) (d : Detection) (e : Event) :
  0 < fileDetections w → descriptor d ≠ [] →
  e = FileSelected None ∨ e = ToggleMode file ∨ e = ToggleMode camera →
  ∃ w1 w2, step number_toString w e = Some w1
           ∧ step number_toString w1 (FileDetectionDone (Returned (Some d))) = Some w2
           ∧ (e ≠ ToggleMode camera → selectedFile w1 = None ∧ selectedFile w2 = None)
           ∧ selectedDescriptor w2 = Some (descriptor d)
           ∧ faceValid w2 = true
           ∧ trace w2 = Fetch (Api.checkInWithDescriptor (descriptor d))
                        :: CallHandleFileCheckIn :: trace w
           ∧ fileCheckIns w2 = S (fileCheckIns w).
Proof.
  intros Lt N H.
  assert (∃ w1, step number_toString w e = Some w1
                ∧ (∃ n, fileDetections w1 = S n)
                ∧ trace w1 = trace w ∧ fileCheckIns w1 = fileCheckIns w
                ∧ (e ≠ ToggleMode camera → selectedFile w1 = None)) as (w1 & E & [n F] & T & C & S1).
  { destruct (fileDetections w) as [|n] eqn:?; [lia|].
    destruct H as [-> | [-> | ->]]; unfold step; eexists; (split; [done|]);
      destruct (videoElement w) eqn:?, (srcObject w) eqn:?,
        (detectionInterval w) as [[|i]|] eqn:?; fields w;
      (split; [by eexists|]); by repeat split. }
  exists w1. rewrite E. clear E H Lt.
  unfold step, resume. rewrite F. eexists. repeat (split; [done|]).
  rewrite <- T, <- C. clear T C.
  destruct d as [[|x y]]; [done|]. cbn [descriptor].
  unfold processSelectedFile_detected. cbn [descriptor].
  split; [|by fields w1].
  intros H. specialize (S1 H). by fields w1.
Qed.

(** X15: a drop with a file starts the processing of that file as a
    selection does: the file is stored, the message is emptied and the
    read begins; a drop without a file only ends the dragging state, and
    unlike an empty selection keeps the selected file, its descriptor and
    [faceValid]. *)
Theorem drop_selects_file (w : World) :
  (∀ f, ∃ w', step number_toString w (Drop (Some f)) = Some w'
              ∧ isDragging w' = false
              ∧ selectedFile w' = Some f
              ∧ loaddingModels w' = true
              ∧ checkInResult w' = Js.Str ""
              ∧ fileReads w' = S (fileReads w)
              ∧ selectedDescriptor w' = selectedDescriptor w)
  ∧ (∃ w', step number_toString w (Drop None) = Some w'
           ∧ isDragging w' = false
           ∧ selectedFile w' = selectedFile w
           ∧ selectedDescriptor w' = selectedDescriptor w
           ∧ faceValid w' = faceValid w
           ∧ fileReads w' = fileReads w)
  ∧ (∃ w', step number_toString w (FileSelected None) = Some w'
           ∧ selectedFile w' = None
           ∧ selectedDescriptor w' = Some []
           ∧ faceValid w' = false
           ∧ fileReads w' = fileReads w).
Proof.
  unfold step. repeat split; [intros f|..]; eexists; (split; [done|]); by fields w.
Qed.

(** *** Registration *)

(** X16: whatever [fetch] delivers, a registration that settles clears
    [registrationLoading] and enables the form again; and unless it ends
    in the success state, it ends in the error state with the name, the
    code and the image as they were. *)
Theorem registration_failure_keeps_form (w : World) (o : Api.FetchOutcome) :
  registrationLoading (handleRegistrationSubmit_settled (Api.postForm o) w) = false
  ∧ isRegistrationDisabled (handleRegistrationSubmit_settled (Api.postForm o) w) = false
  ∧ (registrationStatus (handleRegistrationSubmit_settled (Api.postForm o) w) ≠ success →
     registrationStatus (handleRegistrationSubmit_settled (Api.postForm o) w) = error
     ∧ registrationName (handleRegistrationSubmit_settled (Api.postForm o) w)
       = registrationName w
     ∧ registrationCode (handleRegistrationSubmit_settled (Api.postForm o) w)
       = registrationCode w
     ∧ registrationFile (handleRegistrationSubmit_settled (Api.postForm o) w)
       = registrationFile w).
Proof.
  unfold handleRegistrationSubmit_settled.
  destruct (Api.postForm o) as [res|err];
    [destruct (Js.get_strict _ res) as [ok|]; [destruct (Js.truthy ok)|]|];
    by fields w.
Qed.

(** X17: a submission with a name and a code that are not blank and with
    an image sends one request to [/register], with the trimmed name and
    the trimmed code; the fields of the form keep what the user typed;
    the form is disabled and shows the progress message.  Nothing in the
    method tests [registrationLoading]: a second submission while the
    first is in flight sends a second request. *)
Theorem registration_sends_trimmed (w : World) (f : Api.File) :
  JsString.trim (registrationName w) ≠ "" →
  JsString.trim (registrationCode w) ≠ "" →
  registrationFile w = Some f →
  trace (handleRegistrationSubmit w)
  = Fetch (Api.registerCustomer (JsString.trim (registrationName w))
             (JsString.trim (registrationCode w)) f) :: trace w
  ∧ registrations (handleRegistrationSubmit w) = S (registrations w)
  ∧ registrationLoading (handleRegistrationSubmit w) = true
  ∧ isRegistrationDisabled (handleRegistrationSubmit w) = true
  ∧ registrationStatus (handleRegistrationSubmit w) = info
  ∧ registrationResult (handleRegistrationSubmit w) = Js.Str Msg.registering
  ∧ registrationName (handleRegistrationSubmit w) = registrationName w
  ∧ registrationCode (handleRegistrationSubmit w) = registrationCode w.
Proof.
  intros N C F. unfold handleRegistrationSubmit.
  destruct (JsString.trim (registrationName w)) eqn:?; [done|].
  destruct (JsString.trim (registrationCode w)) eqn:?; [done|].
  cbn [JsString.is_empty orb]. by fields w.
Qed.

Lemma strip_blank (a : ascii) (l : list ascii) :
  blank a = true → JsString.strip_any JsString.white_space (a :: l) = Some l.
Proof.
  destruct a as [[] [] [] [] [] [] [] []]; intros B; vm_compute in B;
    try discriminate B; reflexivity.
Qed.

Lemma trimStart_blank (l : list ascii) (n : nat) :
  forallb blank l = true → length l ≤ n →
  JsString.strip_leading n JsString.white_space l = [].
Proof.
  revert n. induction l as [|a l IH]; intros n B Le.
  - by destruct n.
  - cbn [forallb] in B. apply andb_prop in B as [Ba Bl].
    destruct n as [|n]; [cbn in Le; lia|].
    cbn [JsString.strip_leading]. rewrite (strip_blank _ _ Ba).
    apply IH; [done|]. cbn in Le. lia.
Qed.

Lemma trim_blank_string (s : string) :
  forallb blank (String.list_ascii_of_string s) = true → JsString.trim s = "".
Proof.
  intros B. unfold JsString.trim, JsString.trimStart_bytes.
  by rewrite trimStart_blank.
Qed.

(** X18: a name, or a code, made of spaces, tabs and line breaks only is
    refused like an empty one: the validation message is shown and
    nothing is sent, whatever the other fields hold. *)
Theorem blank_name_refused (w : World) :
  forallb blank (String.list_ascii_of_string (registrationName w)) = true
  ∨ forallb blank (String.list_ascii_of_string (registrationCode w)) = true →
  registrationStatus (handleRegistrationSubmit w) = error
  ∧ registrationResult (handleRegistrationSubmit w) = Js.Str Msg.need_name_code
  ∧ trace (handleRegistrationSubmit w) = trace w
  ∧ registrations (handleRegistrationSubmit w) = registrations w
  ∧ registrationLoading (handleRegistrationSubmit w) = registrationLoading w.
Proof.
  intros B. unfold handleRegistrationSubmit.
  assert (JsString.is_empty (JsString.trim (registrationName w))
          || JsString.is_empty (JsString.trim (registrationCode w)) = true) as ->.
  { destruct B as [B|B]; rewrite (trim_blank_string _ B); [done|apply orb_true_r]. }
  by fields w.
Qed.

(** *** Model loading *)

(** X19: when the load of the models that [ngOnInit] started settles, its
    message replaces whatever [checkInResult] held, and [loaddingModels]
    is cleared even if a still image is being read or searched at that
    moment: the flag is shared with [processSelectedFile], and the first
    of the two to finish clears it. *)
Theorem models_settle_clears_shared_flag (w : World) (loaded : bool) :
  0 < modelLoads w →
  ∃ w', step number_toString w (ModelsLoaded loaded) = Some w'
        ∧ checkInResult w'
          = Js.Str (if loaded then Msg.models_loaded else Msg.models_failed)
        ∧ loaddingModels w' = false
        ∧ fileReads w' = fileReads w
        ∧ fileDetections w' = fileDetections w.
Proof.
  intros Lt. unfold step, resume.
  destruct (modelLoads w) eqn:?; [lia|]. eexists. split; [done|].
  destruct loaded; by fields w.
Qed.

(** *** Results that arrive after a change of mode *)

(** X20: [toggleMode('file')] stops the stream and does not cancel a
    request for the camera that is still pending: when the user grants it
    afterwards and the video element is still in the view, the stream is
    attached in file mode, where nothing stops it. *)
Theorem camera_granted_after_mode_switch (w : World) :
  videoElement w = true → 0 < cameraRequests w →
  ∃ w1 w2, step number_toString w (ToggleMode file) = Some w1
           ∧ srcObject w1 = false
           ∧ cameraRequests w1 = cameraRequests w
           ∧ step number_toString w1 (CameraSettled true) = Some w2
           ∧ currentMode w2 = file
           ∧ srcObject w2 = true.
Proof.
  intros V Lt. unfold step, resume.
  destruct (cameraRequests w) as [|n] eqn:?; [lia|].
  destruct (srcObject w) eqn:?, (detectionInterval w) as [[|i]|] eqn:?; fields w;
    do 2 eexists; (split; [done|]); norm; by repeat apply conj.
Qed.

Lemma toggled_to_file (w : World) :
  checkInResult (toggleMode file w) = Js.Str ""
  ∧ handle_truthy (detectionInterval (toggleMode file w)) = false
  ∧ liveCheckIns (toggleMode file w) = liveCheckIns w.
Proof.
  destruct (videoElement w) eqn:?, (srcObject w) eqn:?,
    (detectionInterval w) as [[|i]|] eqn:?; by fields w.
Qed.

Lemma settled_after_toggle (w : World) (r : Api.Settled) (n : nat) :
  let w2 := trigger_done (handleCheckIn_settled number_toString r
                            (set_liveCheckIns n (toggleMode file w))) in
  currentMode w2 = file
  ∧ checkInResult w2 = checkInResult (handleCheckIn_settled number_toString r w)
  ∧ loading w2 = false
  ∧ timerHandleCheckin w2 = None
  ∧ ∃ id, detectionInterval w2 = Some id
          ∧ timers w2 !! id = Some (Interval (now w + 100)).
Proof.
  cbv zeta. destruct r as [res|err]; unfold handleCheckIn_settled, setResultFromApiResponse.
  - destruct (Js.truthy res && _), (videoElement w) eqn:?, (srcObject w) eqn:?,
      (detectionInterval w) as [[|i]|] eqn:?, (nextTimer w) as [|m] eqn:?;
      fields w; (repeat apply conj; try done);
      (eexists; split; [done|apply lookup_insert_eq]).
  - destruct (Js.truthy (Api.body err) && _), (videoElement w) eqn:?, (srcObject w) eqn:?,
      (detectionInterval w) as [[|i]|] eqn:?, (nextTimer w) as [|m] eqn:?;
      fields w; (repeat apply conj; try done);
      (eexists; split; [done|apply lookup_insert_eq]).
Qed.

(** X21: a live check-in that settles after a switch to file mode still
    shows its result, whatever [fetch] delivered, clears [loading] and
    the trigger's handle, and starts the detection loop again: the loop
    then runs in file mode. *)
Theorem checkin_settles_after_mode_switch (w : World) (o : Api.FetchOutcome) :
  0 < liveCheckIns w →
  ∃ w1 w2, step number_toString w (ToggleMode file) = Some w1
           ∧ checkInResult w1 = Js.Str ""
           ∧ handle_truthy (detectionInterval w1) = false
           ∧ step number_toString w1 (CheckInDone o) = Some w2
           ∧ currentMode w2 = file
           ∧ checkInResult w2
             = checkInResult (handleCheckIn_settled number_toString (Api.postForm o) w)
           ∧ loading w2 = false
           ∧ timerHandleCheckin w2 = None
           ∧ ∃ id, detectionInterval w2 = Some id
                   ∧ timers w2 !! id = Some (Interval (now w + 100)).
Proof.
  intros Lt. destruct (liveCheckIns w) as [|n] eqn:L; [lia|].
  destruct (toggled_to_file w) as (R & H & E). rewrite L in E.
  exists (toggleMode file w),
    (trigger_done (handleCheckIn_settled number_toString (Api.postForm o)
                     (set_liveCheckIns n (toggleMode file w)))).
  repeat (split; [done|]). split.
  - unfold step, resume. by rewrite E.
  - apply settled_after_toggle.
Qed.

(** *** The detection service under the component *)

(** X22: with the models loaded, a detection on the camera never
    rejects, and [detectFace] always clears [faceDetecting]; it counts a
    face exactly when face-api returned one and the landmarks could be
    drawn: an exception while drawing discards the detection.  Without
    the models, when the load that the detection awaits fails, the
    detection rejects and [detectFace] writes nothing. *)
Theorem drawing_failure_is_no_face (w : World) (s : FaceService.Service)
    (fa : FaceService.FaceApi) (drawn loaded : bool) :
  0 < detections w →
  (FaceService.modelsLoaded s = true →
   ∃ w', step number_toString w
           (DetectionDone
              (FaceService.detectSingleFaceFromVideo true true loaded fa drawn s))
         = Some w'
         ∧ faceDetecting w' = false
         ∧ faceValid w' = match fa with
                          | FaceService.ApiReturned (Some _) => drawn
                          | _ => false
                          end)
  ∧ (FaceService.modelsLoaded s = false → loaded = false →
     ∃ w', step number_toString w
             (DetectionDone
                (FaceService.detectSingleFaceFromVideo true true loaded fa drawn s))
           = Some w'
           ∧ faceDetecting w' = faceDetecting w
           ∧ faceValid w' = faceValid w).
Proof.
  intros Lt. unfold step, resume, FaceService.detectSingleFaceFromVideo.
  destruct (detections w) eqn:?; [lia|]. split.
  - intros ->. eexists. split; [done|].
    destruct fa as [|[d|]], drawn, (loading w) eqn:?,
      (timerHandleCheckin w) as [[|i]|] eqn:?; cbn [FaceService.detect_try andb];
      by fields w.
  - intros -> ->. eexists. split; [done|]. by fields w.
Qed.

End More.

(** ** The detection service on its own *)

Section Service.

Lemma step_loaded (s : FaceService.Service) (e : FaceService.Event)
    (s' : FaceService.Service) :
  FaceService.modelsLoaded s = true → FaceService.pendingLoads s = 0 →
  FaceService.step s e = Some s' → s' = s.
Proof.
  intros M P. destruct e; cbn;
    unfold FaceService.loadModels, FaceService.detect_start; rewrite ?M, ?P;
    by intros ?; simplify_eq.
Qed.

(** X23: once the models are loaded and no load is in flight, no call of
    the service downloads anything or changes its state: [loadModels]
    and the detections return without loading. *)
Theorem models_loaded_once (s : FaceService.Service)
    (events : list FaceService.Event) (s' : FaceService.Service) :
  FaceService.modelsLoaded s = true → FaceService.pendingLoads s = 0 →
  FaceService.run events s = Some s' → s' = s.
Proof.
  intros M P. induction events as [|e events IH]; cbn; intros R.
  - by simplify_eq.
  - destruct (FaceService.step s e) as [s1|] eqn:E; [|done].
    apply (step_loaded _ _ _ M P) in E. subst. by apply IH.
Qed.

Lemma detect_start_unloaded (s : FaceService.Service) :
  FaceService.modelsLoaded s = false →
  FaceService.modelsLoaded (FaceService.detect_start s) = false
  ∧ FaceService.netLoads (FaceService.detect_start s) = FaceService.netLoads s + 3
  ∧ FaceService.pendingLoads (FaceService.detect_start s)
    = S (FaceService.pendingLoads s).
Proof. intros M. unfold FaceService.detect_start, FaceService.loadModels. by rewrite !M. Qed.

(** X24: until a load has succeeded, every detection calls [loadModels],
    and every such call starts the three downloads again, whether or not
    an earlier load is still in flight: [n] detections started meanwhile
    make [3 * n] calls of [loadFromUri]. *)
Theorem detections_reload_models (s : FaceService.Service) (n : nat) :
  FaceService.modelsLoaded s = false →
  FaceService.modelsLoaded (Nat.iter n FaceService.detect_start s) = false
  ∧ FaceService.netLoads (Nat.iter n FaceService.detect_start s)
    = FaceService.netLoads s + 3 * n
  ∧ FaceService.pendingLoads (Nat.iter n FaceService.detect_start s)
    = FaceService.pendingLoads s + n.
Proof.
  intros M. induction n as [|n (IM & IN & IP)].
  - cbn. repeat split; [done|lia|lia].
  - rewrite !Nat.iter_succ. destruct (detect_start_unloaded _ IM) as (M' & N' & P').
    rewrite M', N', P', IN, IP. repeat split; [lia|lia].
Qed.


End Service.

(** ** Sample runs *)

Example trim_spaces : JsString.trim "  Alice  " = "Alice".
Proof. reflexivity. Qed.

Example trim_blank : JsString.trim "   " = "".
Proof. reflexivity. Qed.

Example includes_json :
  JsString.includes "application/json" "application/json; charset=utf-8" = true.
Proof. reflexivity. Qed.

(** The whole live path: the trigger fires 3000 ms after the arming, the
    backend recognises Alice, and the message carries her name and the
    distance. *)
Example alice_checks_in :
  checkInResult
    (after (live_session ++ positive_tick
            ++ [Advance 3000; Fire 2; CheckInDone (json_response 200 alice)]))
  = Js.Str "Check-in thành công! User :  Alice -- distance : 0.32".
Proof. vm_compute. reflexivity. Qed.

(** The file path against a backend that answers 400 with a message: the
    user sees the generic connection error. *)
Example file_checkin_rejected_run :
  checkInResult
    (after [ViewFileCanvas true; ToggleMode file; FileSelected (Some sample_file);
            FileDecoded true; FileDetectionDone (Returned (Some sample_detection));
            FileCheckInDone (json_response 400 not_recognized)])
  = Js.Str Msg.api_error.
Proof. vm_compute. reflexivity. Qed.

(** C1, counterexample: a second tick fires while the detection of the
    first has not returned; it is not skipped, and two attempts are in
    flight. *)
Lemma ticks_overlap :
  run sample_number_toString overlapping_ticks init = Some (after overlapping_ticks)
  ∧ detections (after overlapping_ticks) = 2.
Proof. vm_compute. split; reflexivity. Qed.

(** C1, on a sample: the tick that is due while one detection is in
    flight starts a second one. *)
Lemma tick_starts_detection_witness :
  timers ticking !! 1 = Some (Interval 200) ∧ 200 ≤ now ticking
  ∧ ∃ w', step sample_number_toString ticking (Fire 1) = Some w'
          ∧ detections w' = 2
          ∧ timers w' !! 1 = Some (Interval 300).
Proof.
  split; [reflexivity|]. split; [apply Nat.leb_le; reflexivity|].
  apply (tick_starts_detection sample_number_toString ticking 1 200);
    [reflexivity|apply Nat.leb_le; reflexivity|reflexivity|reflexivity].
Defined.

(** C2, counterexample: the trigger armed at 100 ms still fires at
    3100 ms, 2000 ms after the switch to file mode, and its callback calls
    [handleCheckIn], which leaves its no-face message; and a switch to
    camera mode leaves the descriptor of the last detection in place. *)
Lemma trigger_fires_after_mode_switch :
  run sample_number_toString switch_scenario init = Some (after switch_scenario)
  ∧ now (after switch_scenario) = 3100
  ∧ trace (after switch_scenario) = [CallHandleCheckIn; SetTimeout 2 3000]
  ∧ checkInResult (after switch_scenario) = Js.Str Msg.no_face_camera
  ∧ selectedDescriptor (toggleMode camera (after (live_session ++ positive_tick)))
    = Some (descriptor sample_detection).
Proof. vm_compute. repeat split; reflexivity. Qed.

(** C2, on a sample: the armed trigger is still pending after a switch to
    file mode. *)
Lemma toggleMode_keeps_trigger_witness :
  run sample_number_toString (live_session ++ positive_tick ++ [Advance 3000]) init
  = Some armed
  ∧ timers (toggleMode file armed) !! 2 = Some (Timeout 3100).
Proof.
  assert (run sample_number_toString
            (live_session ++ positive_tick ++ [Advance 3000]) init = Some armed) as R
    by (vm_compute; reflexivity).
  split; [exact R|].
  destruct (toggleMode_keeps_trigger sample_number_toString _ armed file R)
    as (_ & _ & _ & _ & H & _).
  apply H. reflexivity.
Defined.

(** C3, on a sample: with the live check-in in flight, one call for one
    arming. *)
Lemma auto_submit_discipline_witness :
  run sample_number_toString
      (live_session ++ positive_tick ++ [Advance 3000; Fire 2]) init = Some submitted
  ∧ calls submitted ≤ arms submitted ∧ liveCheckIns submitted ≤ 1.
Proof.
  assert (run sample_number_toString
            (live_session ++ positive_tick ++ [Advance 3000; Fire 2]) init
          = Some submitted) as R by (vm_compute; reflexivity).
  split; [exact R|].
  destruct (auto_submit_discipline sample_number_toString _ submitted R)
    as (_ & C & L & _).
  split; [exact C|exact L].
Defined.

(** C4, counterexample: the detection in flight when the loop is stopped
    returns afterwards, and sets [faceValid], replaces
    [selectedDescriptor] and arms the trigger. *)
Lemma stopped_loop_still_applies_result :
  run sample_number_toString late_detection init = Some (after late_detection)
  ∧ detectionInterval (after late_detection) = None
  ∧ faceValid (after late_detection) = true
  ∧ selectedDescriptor (after late_detection) = Some (descriptor sample_detection)
  ∧ timerHandleCheckin (after late_detection) = Some 2
  ∧ timers (after late_detection) !! 2 = Some (Timeout 3100).
Proof. vm_compute. repeat split; reflexivity. Qed.

(** C4, on a sample: the result that returns after the stop arms the
    trigger. *)
Lemma stop_idempotent_results_still_applied_witness :
  loading ticking = false ∧ handle_truthy (timerHandleCheckin ticking) = false
  ∧ timerHandleCheckin
      (detectFace_settled (Returned (Some sample_detection))
         (stopFaceDetectionLoop ticking)) = Some 2.
Proof.
  split; [reflexivity|]. split; [reflexivity|].
  destruct (stop_idempotent_results_still_applied ticking sample_detection)
    as (_ & _ & _ & _ & H).
  apply (H eq_refl eq_refl).
Defined.

(** C5, on a sample: a file check-in before any detection. *)
Lemma file_checkin_without_descriptor_witness :
  selectedDescriptor init = Some []
  ∧ checkInResult (handleFileCheckIn init) = Js.Str Msg.no_face_image
  ∧ loading (handleFileCheckIn init) = false.
Proof.
  split; [reflexivity|].
  destruct (file_checkin_without_descriptor init (or_intror eq_refl))
    as (H & _ & _ & _ & L).
  split; [exact H|exact L].
Defined.

(** C7, on a sample: [loading] is true when the trigger's check-in is
    sent. *)
Lemma loading_set_and_cleared_witness :
  submits armed = true
  ∧ selectedDescriptor armed = Some (descriptor sample_detection)
  ∧ ∃ w1, handleCheckIn sample_number_toString armed = (w1, true)
          ∧ loading w1 = true
          ∧ trace w1 = Fetch (Api.checkInWithDescriptor (descriptor sample_detection))
                       :: CallHandleCheckIn :: trace armed.
Proof.
  split; [reflexivity|]. split; [reflexivity|].
  destruct (loading_set_and_cleared sample_number_toString armed Api.NetworkFailure)
    as (H & _).
  apply H; reflexivity.
Defined.

(** C8, on a sample: the empty form is refused. *)
Lemma registration_validates_then_clears_witness :
  JsString.trim (registrationName init) = ""
  ∧ registrationStatus (handleRegistrationSubmit init) = error.
Proof.
  split; [reflexivity|].
  destruct (registration_validates_then_clears init) as [H _].
  destruct (H (or_introl eq_refl)) as [S _]. exact S.
Defined.

(** C9, on a sample: the step that sends the trigger's check-in has
    stopped the loop. *)
Lemma live_checkin_stops_and_restarts_loop_witness :
  run sample_number_toString (live_session ++ positive_tick ++ [Advance 3000]) init
  = Some armed
  ∧ step sample_number_toString armed (Fire 2) = Some submitted
  ∧ liveCheckIns armed < liveCheckIns submitted
  ∧ detectionInterval submitted = None.
Proof.
  assert (run sample_number_toString
            (live_session ++ positive_tick ++ [Advance 3000]) init = Some armed) as R
    by (vm_compute; reflexivity).
  assert (step sample_number_toString armed (Fire 2) = Some submitted) as Hs
    by (vm_compute; reflexivity).
  assert (liveCheckIns armed < liveCheckIns submitted) as Lt
    by (apply Nat.ltb_lt; vm_compute; reflexivity).
  split; [exact R|]. split; [exact Hs|]. split; [exact Lt|].
  destruct (live_checkin_stops_and_restarts_loop sample_number_toString _ armed R)
    as (_ & H & _).
  destruct (H _ _ Hs Lt) as [D _]. exact D.
Defined.

(** C10, on a sample: the detection on the selected image returns a face
    and the descriptor goes to the backend in the same step. *)
Lemma file_detection_submits_at_once_witness :
  0 < fileDetections file_detecting
  ∧ ∃ w', step sample_number_toString file_detecting
            (FileDetectionDone (Returned (Some sample_detection))) = Some w'
          ∧ faceValid w' = true
          ∧ selectedDescriptor w' = Some (descriptor sample_detection).
Proof.
  assert (0 < fileDetections file_detecting) as Lt
    by (apply Nat.ltb_lt; vm_compute; reflexivity).
  split; [exact Lt|].
  destruct (file_detection_submits_at_once sample_number_toString
              file_detecting sample_detection Lt) as (w' & Hs & F & D & _).
  exists w'. split; [exact Hs|]. split; [exact F|exact D].
Defined.

(** ** Sample runs of the other properties *)

(** X1, on a sample: a 200 with a JSON body fulfils with that body. *)
Lemma postForm_fulfils_witness :
  Api.postForm (json_response 200 alice) = Api.Fulfilled alice.
Proof.
  destruct (postForm_fulfils (json_response 200 alice) alice) as [[_ H] _].
  apply H. eexists. split; [reflexivity|]. split; reflexivity.
Defined.

(** X2, on a sample: the page of a proxy counts as a check-in of
    [undefined]. *)
Lemma success_without_json_witness :
  Api.ok html_ok = true
  ∧ checkInResult (handleFileCheckIn_settled sample_number_toString
                     (Api.postForm (Api.Responded html_ok)) file_detecting)
    = Js.Str "Check-in thành công! User :  undefined -- distance : undefined".
Proof.
  split; [reflexivity|].
  destruct (success_without_json sample_number_toString file_detecting html_ok
              eq_refl eq_refl) as (_ & H & _).
  exact H.
Defined.

(** X3, on a sample: a gateway's error page gives the generic error on
    the live path. *)
Lemma live_rejection_message_witness :
  Api.ok html_error = false
  ∧ checkInResult (handleCheckIn_settled sample_number_toString
                     (Api.postForm (Api.Responded html_error)) submitted)
    = Js.Str Msg.api_error.
Proof.
  split; [reflexivity|].
  destruct (live_rejection_message sample_number_toString submitted html_error eq_refl)
    as [H _].
  exact H.
Defined.

(** X4, on a sample: the loop of the armed world is timer 1. *)
Lemma one_detection_loop_witness :
  run sample_number_toString (live_session ++ positive_tick ++ [Advance 3000]) init
  = Some armed
  ∧ timers armed !! 1 = Some (Interval 200)
  ∧ detectionInterval armed = Some 1.
Proof.
  assert (run sample_number_toString
            (live_session ++ positive_tick ++ [Advance 3000]) init = Some armed) as R
    by (vm_compute; reflexivity).
  assert (timers armed !! 1 = Some (Interval 200)) as L by reflexivity.
  split; [exact R|]. split; [exact L|].
  destruct (one_detection_loop sample_number_toString _ armed R) as (H & _).
  exact (H 1 200 L).
Defined.

(** X5, on a sample: [loading] is set while the live check-in is in
    flight. *)
Lemma busy_flags_mean_in_flight_witness :
  run sample_number_toString
      (live_session ++ positive_tick ++ [Advance 3000; Fire 2]) init = Some submitted
  ∧ loading submitted = true
  ∧ 0 < liveCheckIns submitted + fileCheckIns submitted.
Proof.
  assert (run sample_number_toString
            (live_session ++ positive_tick ++ [Advance 3000; Fire 2]) init
          = Some submitted) as R by (vm_compute; reflexivity).
  split; [exact R|]. split; [reflexivity|].
  destruct (busy_flags_mean_in_flight sample_number_toString _ submitted R) as [H _].
  exact (H eq_refl).
Defined.

(** X6, on a sample: the armed world holds the descriptor of the
    detection, and [handleCheckIn] sends it. *)
Lemma descriptor_never_null_witness :
  run sample_number_toString (live_session ++ positive_tick ++ [Advance 3000]) init
  = Some armed
  ∧ ∃ d, selectedDescriptor armed = Some d
         ∧ (submits armed = true →
            ∃ w1, handleCheckIn sample_number_toString armed = (w1, true)
                  ∧ trace w1 = Fetch (Api.checkInWithDescriptor d)
                               :: CallHandleCheckIn :: trace armed).
Proof.
  assert (run sample_number_toString
            (live_session ++ positive_tick ++ [Advance 3000]) init = Some armed) as R
    by (vm_compute; reflexivity).
  split; [exact R|].
  exact (descriptor_never_null sample_number_toString _ armed R).
Defined.

(** X7, on a sample: the form is disabled while the registration is in
    flight. *)
Lemma registration_flags_witness :
  run sample_number_toString
      [InputName "  Ann "; InputCode "A1"; RegistrationFileSelected (Some sample_file);
       RegistrationSubmit] init
  = Some (handleRegistrationSubmit form_filled)
  ∧ isRegistrationDisabled (handleRegistrationSubmit form_filled) = true
  ∧ 0 < registrations (handleRegistrationSubmit form_filled).
Proof.
  assert (run sample_number_toString
            [InputName "  Ann "; InputCode "A1";
             RegistrationFileSelected (Some sample_file); RegistrationSubmit] init
          = Some (handleRegistrationSubmit form_filled)) as R
    by (vm_compute; reflexivity).
  split; [exact R|]. split; [reflexivity|].
  destruct (registration_flags sample_number_toString _ _ R) as [_ H].
  exact (H eq_refl).
Defined.

(** X8, on a sample: the request of the live check-in. *)
Lemma only_known_requests_witness :
  run sample_number_toString
      (live_session ++ positive_tick ++ [Advance 3000; Fire 2]) init = Some submitted
  ∧ Fetch (Api.checkInWithDescriptor (descriptor sample_detection)) ∈ trace submitted
  ∧ (Api.url (Api.checkInWithDescriptor (descriptor sample_detection))
     = "http://localhost:3000/checkin/detection"
     ∨ Api.url (Api.checkInWithDescriptor (descriptor sample_detection))
       = "http://localhost:3000/register").
Proof.
  assert (run sample_number_toString
            (live_session ++ positive_tick ++ [Advance 3000; Fire 2]) init
          = Some submitted) as R by (vm_compute; reflexivity).
  assert (Fetch (Api.checkInWithDescriptor (descriptor sample_detection))
          ∈ trace submitted) as H by apply list_elem_of_here.
  split; [exact R|]. split; [exact H|].
  exact (proj2 (only_known_requests sample_number_toString _ submitted _ R H)).
Defined.

(** X9, on a sample: the detection in flight finds no face. *)
Lemma detection_without_face_witness :
  0 < detections ticking
  ∧ ∃ w', step sample_number_toString ticking (DetectionDone (Returned None)) = Some w'
          ∧ faceValid w' = false ∧ faceDetecting w' = false.
Proof.
  assert (0 < detections ticking) as Lt by (apply Nat.ltb_lt; vm_compute; reflexivity).
  split; [exact Lt|].
  destruct (detection_without_face sample_number_toString ticking Lt)
    as [(w' & Hs & V & D & _) _].
  exists w'. split; [exact Hs|]. split; [exact V|exact D].
Defined.

(** X10, on a sample: the face has left the picture when the trigger
    fires. *)
Lemma trigger_stopped_by_guards_witness :
  timers face_lost !! 2 = Some (Timeout 3100) ∧ 3100 ≤ now face_lost
  ∧ loading face_lost = false ∧ submits face_lost = false
  ∧ ∃ w', step sample_number_toString face_lost (Fire 2) = Some w'
          ∧ checkInResult w' = Js.Str Msg.no_face_camera
          ∧ trace w' = CallHandleCheckIn :: trace face_lost
          ∧ timerHandleCheckin w' = None.
Proof.
  assert (timers face_lost !! 2 = Some (Timeout 3100)) as L by reflexivity.
  assert (3100 ≤ now face_lost) as D by (apply Nat.leb_le; vm_compute; reflexivity).
  split; [exact L|]. split; [exact D|]. split; [reflexivity|]. split; [reflexivity|].
  destruct (trigger_stopped_by_guards sample_number_toString face_lost 2 3100
              L D eq_refl eq_refl) as (w' & Hs & M & T & H & _).
  exists w'. split; [exact Hs|]. split; [exact M|]. split; [exact T|exact H].
Defined.

(** X11, on a sample: the trigger fires while the check-in of a still
    image is in flight. *)
Lemma trigger_dropped_while_loading_witness :
  run sample_number_toString file_checking_scenario init = Some file_checking
  ∧ timers file_checking !! 2 = Some (Timeout 3100) ∧ 3100 ≤ now file_checking
  ∧ loading file_checking = true
  ∧ 0 < fileCheckIns file_checking
  ∧ ∃ w', step sample_number_toString file_checking (Fire 2) = Some w'
          ∧ trace w' = trace file_checking
          ∧ timerHandleCheckin w' = None.
Proof.
  assert (run sample_number_toString file_checking_scenario init = Some file_checking)
    as R by (vm_compute; reflexivity).
  assert (timers file_checking !! 2 = Some (Timeout 3100)) as L by reflexivity.
  assert (3100 ≤ now file_checking) as D by (apply Nat.leb_le; vm_compute; reflexivity).
  split; [exact R|]. split; [exact L|]. split; [exact D|]. split; [reflexivity|].
  destruct (trigger_dropped_while_loading sample_number_toString _ file_checking 2 3100
              R L D eq_refl) as (F & w' & Hs & T & _ & H & _).
  split; [exact F|]. exists w'. split; [exact Hs|]. split; [exact T|exact H].
Defined.

(** X12, on a sample: the image is read and there is no file canvas. *)
Lemma file_processing_clears_flags_witness :
  0 < fileReads file_reading
  ∧ true && fileCanvasElement file_reading = false
  ∧ ∃ w', step sample_number_toString file_reading (FileDecoded true) = Some w'
          ∧ faceDetecting w' = false ∧ loaddingModels w' = false.
Proof.
  assert (0 < fileReads file_reading) as Lt by (apply Nat.ltb_lt; vm_compute; reflexivity).
  split; [exact Lt|]. split; [reflexivity|].
  destruct (file_processing_clears_flags sample_number_toString file_reading Threw true)
    as [_ H].
  destruct (H Lt eq_refl) as (w' & Hs & D & M & _).
  exists w'. split; [exact Hs|]. split; [exact D|exact M].
Defined.

(** X13, on a sample: the image shows no face. *)
Lemma file_without_face_is_silent_witness :
  0 < fileDetections file_detecting
  ∧ ∃ w', step sample_number_toString file_detecting
            (FileDetectionDone (Returned None)) = Some w'
          ∧ trace w' = trace file_detecting
          ∧ checkInResult w' = checkInResult file_detecting.
Proof.
  assert (0 < fileDetections file_detecting) as Lt
    by (apply Nat.ltb_lt; vm_compute; reflexivity).
  split; [exact Lt|].
  destruct (file_without_face_is_silent sample_number_toString file_detecting
              (Returned None) Lt (or_intror eq_refl))
    as (w' & Hs & T & _ & _ & _ & M & _).
  exists w'. split; [exact Hs|]. split; [exact T|exact M].
Defined.

(** X14, on a sample: the selection is withdrawn while the detection is
    in flight. *)
Lemma withdrawn_file_still_submitted_witness :
  0 < fileDetections file_detecting ∧ descriptor sample_detection ≠ []
  ∧ ∃ w1 w2, step sample_number_toString file_detecting (FileSelected None) = Some w1
             ∧ step sample_number_toString w1
                 (FileDetectionDone (Returned (Some sample_detection))) = Some w2
             ∧ fileCheckIns w2 = S (fileCheckIns file_detecting).
Proof.
  assert (0 < fileDetections file_detecting) as Lt
    by (apply Nat.ltb_lt; vm_compute; reflexivity).
  assert (descriptor sample_detection ≠ []) as N by discriminate.
  split; [exact Lt|]. split; [exact N|].
  destruct (withdrawn_file_still_submitted sample_number_toString file_detecting
              sample_detection (FileSelected None) Lt N (or_introl eq_refl))
    as (w1 & w2 & H1 & H2 & _ & _ & _ & _ & C).
  exists w1, w2. split; [exact H1|]. split; [exact H2|exact C].
Defined.

(** X15, on a sample: a file is dropped on the initial page. *)
Lemma drop_selects_file_witness :
  ∃ w', step sample_number_toString init (Drop (Some sample_file)) = Some w'
        ∧ selectedFile w' = Some sample_file
        ∧ fileReads w' = 1.
Proof.
  destruct (drop_selects_file sample_number_toString init) as [H _].
  destruct (H sample_file) as (w' & Hs & _ & F & _ & _ & R & _).
  exists w'. split; [exact Hs|]. split; [exact F|exact R].
Defined.

(** X16, on a sample: the backend refuses the registration. *)
Lemma registration_failure_keeps_form_witness :
  registrationStatus
    (handleRegistrationSubmit_settled
       (Api.postForm (json_response 400 not_recognized))
       (handleRegistrationSubmit form_filled)) ≠ success
  ∧ registrationName
      (handleRegistrationSubmit_settled
         (Api.postForm (json_response 400 not_recognized))
         (handleRegistrationSubmit form_filled)) = "  Ann ".
Proof.
  assert (registrationStatus
            (handleRegistrationSubmit_settled
               (Api.postForm (json_response 400 not_recognized))
               (handleRegistrationSubmit form_filled)) ≠ success) as N by discriminate.
  split; [exact N|].
  destruct (registration_failure_keeps_form (handleRegistrationSubmit form_filled)
              (json_response 400 not_recognized)) as (_ & _ & H).
  destruct (H N) as (_ & E & _). exact E.
Defined.

(** X17, on a sample: the name goes out without the spaces around it. *)
Lemma registration_sends_trimmed_witness :
  JsString.trim (registrationName form_filled) ≠ ""
  ∧ JsString.trim (registrationCode form_filled) ≠ ""
  ∧ registrationFile form_filled = Some sample_file
  ∧ trace (handleRegistrationSubmit form_filled)
    = [Fetch (Api.registerCustomer "Ann" "A1" sample_file)].
Proof.
  assert (JsString.trim (registrationName form_filled) ≠ "") as N by discriminate.
  assert (JsString.trim (registrationCode form_filled) ≠ "") as C by discriminate.
  split; [exact N|]. split; [exact C|]. split; [reflexivity|].
  destruct (registration_sends_trimmed form_filled sample_file N C eq_refl) as [T _].
  exact T.
Defined.

(** X18, on a sample: a name of two spaces. *)
Lemma blank_name_refused_witness :
  forallb blank (String.list_ascii_of_string (registrationName form_blank)) = true
  ∧ registrationResult (handleRegistrationSubmit form_blank) = Js.Str Msg.need_name_code.
Proof.
  split; [reflexivity|].
  destruct (blank_name_refused form_blank (or_introl eq_refl)) as (_ & H & _).
  exact H.
Defined.

(** X19, on a sample: the models arrive while an image is being read. *)
Lemma models_settle_clears_shared_flag_witness :
  0 < modelLoads models_and_file ∧ 0 < fileReads models_and_file
  ∧ ∃ w', step sample_number_toString models_and_file (ModelsLoaded true) = Some w'
          ∧ loaddingModels w' = false
          ∧ fileReads w' = fileReads models_and_file.
Proof.
  assert (0 < modelLoads models_and_file) as Lt
    by (apply Nat.ltb_lt; vm_compute; reflexivity).
  assert (0 < fileReads models_and_file) as Lr
    by (apply Nat.ltb_lt; vm_compute; reflexivity).
  split; [exact Lt|]. split; [exact Lr|].
  destruct (models_settle_clears_shared_flag sample_number_toString models_and_file true Lt)
    as (w' & Hs & _ & M & R & _).
  exists w'. split; [exact Hs|]. split; [exact M|exact R].
Defined.

(** X20, on a sample: the user answers the camera prompt after the
    switch to file mode. *)
Lemma camera_granted_after_mode_switch_witness :
  videoElement camera_pending = true ∧ 0 < cameraRequests camera_pending
  ∧ ∃ w1 w2, step sample_number_toString camera_pending (ToggleMode file) = Some w1
             ∧ step sample_number_toString w1 (CameraSettled true) = Some w2
             ∧ currentMode w2 = file ∧ srcObject w2 = true.
Proof.
  assert (0 < cameraRequests camera_pending) as Lt
    by (apply Nat.ltb_lt; vm_compute; reflexivity).
  split; [reflexivity|]. split; [exact Lt|].
  destruct (camera_granted_after_mode_switch sample_number_toString camera_pending
              eq_refl Lt) as (w1 & w2 & H1 & _ & _ & H2 & M & S2).
  exists w1, w2. split; [exact H1|]. split; [exact H2|]. split; [exact M|exact S2].
Defined.

(** X21, on a sample: the live check-in settles in file mode. *)
Lemma checkin_settles_after_mode_switch_witness :
  0 < liveCheckIns submitted
  ∧ ∃ w1 w2, step sample_number_toString submitted (ToggleMode file) = Some w1
             ∧ step sample_number_toString w1 (CheckInDone (json_response 200 alice))
               = Some w2
             ∧ currentMode w2 = file
             ∧ ∃ id, detectionInterval w2 = Some id
                     ∧ timers w2 !! id = Some (Interval (now submitted + 100)).
Proof.
  assert (0 < liveCheckIns submitted) as Lt
    by (apply Nat.ltb_lt; vm_compute; reflexivity).
  split; [exact Lt|].
  destruct (checkin_settles_after_mode_switch sample_number_toString submitted
              (json_response 200 alice) Lt)
    as (w1 & w2 & H1 & _ & _ & H2 & M & _ & _ & _ & I).
  exists w1, w2. split; [exact H1|]. split; [exact H2|]. split; [exact M|exact I].
Defined.

(** X22, on a sample: face-api finds the face and the drawing fails. *)
Lemma drawing_failure_is_no_face_witness :
  0 < detections ticking ∧ FaceService.modelsLoaded models_ready = true
  ∧ ∃ w', step sample_number_toString ticking
            (DetectionDone
               (FaceService.detectSingleFaceFromVideo true true true
                  (FaceService.ApiReturned (Some sample_detection)) false models_ready))
          = Some w'
          ∧ faceDetecting w' = false ∧ faceValid w' = false.
Proof.
  assert (0 < detections ticking) as Lt by (apply Nat.ltb_lt; vm_compute; reflexivity).
  split; [exact Lt|]. split; [reflexivity|].
  destruct (drawing_failure_is_no_face sample_number_toString ticking models_ready
              (FaceService.ApiReturned (Some sample_detection)) false true Lt) as [H _].
  exact (H eq_refl).
Defined.

(** X23, on a sample: a detection and a call of [loadModels] on the
    loaded service. *)
Lemma models_loaded_once_witness :
  FaceService.run [FaceService.Call; FaceService.Settled true] FaceService.fresh
  = Some models_ready
  ∧ FaceService.detect_start (FaceService.loadModels models_ready) = models_ready.
Proof.
  split; [reflexivity|].
  apply (models_loaded_once models_ready [FaceService.Call; FaceService.Detect] _
           eq_refl eq_refl).
  reflexivity.
Defined.

(** X24, on a sample: five ticks of the detection loop before the models
    are there. *)
Lemma detections_reload_models_witness :
  FaceService.modelsLoaded FaceService.fresh = false
  ∧ FaceService.netLoads (Nat.iter 5 FaceService.detect_start FaceService.fresh) = 15.
Proof.
  split; [reflexivity|].
  destruct (detections_reload_models FaceService.fresh 5 eq_refl) as (_ & H & _).
  exact H.
Defined.

